(** * ACME Fitness Shop on Kubernetes: the Pulumi program and its resource graph

    A shallow embedding of the Pulumi TypeScript program that deploys the
    ACME Fitness Shop (index.ts, together with the [ACMESecrets] component of
    secrets.ts), and the properties of the set of resources it registers.

    The program is a straight-line script: it reads one configuration object,
    then calls resource constructors one after the other.  A constructor call
    [new k8s...(name, args, opts)] first evaluates its arguments (which may
    throw) and then registers the resource with the Pulumi engine.  The
    embedding threads the list of registered resources through a small
    state-and-exception monad, so that a run which throws half way still
    shows what had been registered before.

    Conventions.
    - A JavaScript string is represented by the bytes of its UTF-8 encoding
      (what [Buffer.from(s)] yields for a well-formed string).
    - A TypeScript [number] read from the configuration is an integer [Z].
    - TypeScript interfaces are erased at run time: a field of the parsed
      configuration object may be missing, in which case reading it gives
      [undefined].  Such a value is an [option]: [None] is [undefined].
    - An object literal used as a map (labels, selectors, secret data) is an
      association list, keys in source order. *)

From Stdlib Require Import ZArith List String Ascii Bool Lia DecimalString.
Import ListNotations.

Local Open Scope string_scope.
Local Open Scope Z_scope.
Local Open Scope list_scope.

Set Implicit Arguments.

(* ------------------------------------------------------------------------- *)
(** ** Strings, numbers and base64 *)

(** [n.toString()] for an integer [n]: its decimal numeral. *)
Definition numberToString (n : Z) : string :=
  NilZero.string_of_int (Z.to_int n).

(** The bytes of a string, as numbers below 256. *)
Definition bytesOf (s : string) : list Z :=
  map (fun c => Z.of_nat (nat_of_ascii c)) (list_ascii_of_string s).

Definition stringOfBytes (bs : list Z) : string :=
  string_of_list_ascii (map (fun b => ascii_of_nat (Z.to_nat b)) bs).

Definition isByte (b : Z) : Prop := 0 <= b < 256.

Module Base64.

(** The alphabet of RFC 4648, section 4. *)
Definition alphabet : string :=
  "ABCDEFGHIJKLMNOPQRSTUVWXYZabcdefghijklmnopqrstuvwxyz0123456789+/".

Definition pad : ascii := "="%char.

Definition digit (v : Z) : ascii :=
  match String.get (Z.to_nat v) alphabet with
  | Some c => c
  | None => pad
  end.

(** Three bytes make a 24-bit group, read as four 6-bit digits; a final
    group of one or two bytes is completed with zero bits and padded. *)
Fixpoint encode (bs : list Z) : list ascii :=
  match bs with
  | [] => []
  | [a] =>
      let n := a * 65536 in
      [digit (n / 262144); digit ((n / 4096) mod 64); pad; pad]
  | [a; b] =>
      let n := a * 65536 + b * 256 in
      [digit (n / 262144); digit ((n / 4096) mod 64);
       digit ((n / 64) mod 64); pad]
  | a :: b :: c :: rest =>
      let n := a * 65536 + b * 256 + c in
      digit (n / 262144) :: digit ((n / 4096) mod 64)
        :: digit ((n / 64) mod 64) :: digit (n mod 64) :: encode rest
  end.

(** The value of a digit of the alphabet. *)
Fixpoint indexFrom (i : Z) (c : ascii) (s : string) : option Z :=
  match s with
  | EmptyString => None
  | String c' s' => if Ascii.eqb c c' then Some i else indexFrom (i + 1) c s'
  end.

Definition value (c : ascii) : option Z := indexFrom 0 c alphabet.

Fixpoint decode (cs : list ascii) : option (list Z) :=
  match cs with
  | [] => Some []
  | c1 :: c2 :: c3 :: c4 :: rest =>
      match value c1, value c2 with
      | Some v1, Some v2 =>
          match value c3, value c4, rest with
          | Some v3, Some v4, _ =>
              let n := v1 * 262144 + v2 * 4096 + v3 * 64 + v4 in
              option_map
                (fun bs => n / 65536 :: (n / 256) mod 256 :: n mod 256 :: bs)
                (decode rest)
          | Some v3, None, [] =>
              if Ascii.eqb c4 pad
              then let n := v1 * 262144 + v2 * 4096 + v3 * 64 in
                   Some [n / 65536; (n / 256) mod 256]
              else None
          | None, None, [] =>
              if Ascii.eqb c3 pad && Ascii.eqb c4 pad
              then let n := v1 * 262144 + v2 * 4096 in Some [n / 65536]
              else None
          | _, _, _ => None
          end
      | _, _ => None
      end
  | _ => None
  end.

End Base64.

(** [toBase64] of index.ts (and the method of the same name of
    [ACMESecrets]): [Buffer.from(s).toString("base64")]. *)
Definition toBase64 (s : string) : string :=
  string_of_list_ascii (Base64.encode (bytesOf s)).

(* ------------------------------------------------------------------------- *)
(** ** Configuration *)

(** The interface [Data] of index.ts: the configuration variables of the
    stack, every field required by the type. *)
Module Data.
Record t := make {
  isSingleNode : bool;
  dataStorePassword : string;
  frontendPort : Z;
  usersPort : Z;
  catalogPort : Z;
  orderPort : Z;
  cartPort : Z;
  paymentPort : Z;
  frontendNodeport : Z;
  posNodeport : Z
}.
End Data.

(** The object that [kubeVars] holds at run time.  [requireObject<Data>]
    parses the stored JSON and casts it: nothing checks the fields, so each
    of them is either there or [undefined]. *)
Module KubeVars.
Record t := make {
  isSingleNode : option bool;
  dataStorePassword : option string;
  frontendPort : option Z;
  usersPort : option Z;
  catalogPort : option Z;
  orderPort : option Z;
  cartPort : option Z;
  paymentPort : option Z;
  frontendNodeport : option Z;
  posNodeport : option Z
}.

(** The run-time object of a configuration that supplies every field. *)
Definition supplied (d : Data.t) : t :=
  {| isSingleNode := Some (Data.isSingleNode d);
     dataStorePassword := Some (Data.dataStorePassword d);
     frontendPort := Some (Data.frontendPort d);
     usersPort := Some (Data.usersPort d);
     catalogPort := Some (Data.catalogPort d);
     orderPort := Some (Data.orderPort d);
     cartPort := Some (Data.cartPort d);
     paymentPort := Some (Data.paymentPort d);
     frontendNodeport := Some (Data.frontendNodeport d);
     posNodeport := Some (Data.posNodeport d) |}.

(** No field is [undefined]. *)
Definition complete (kv : t) : bool :=
  match isSingleNode kv, dataStorePassword kv, frontendPort kv, usersPort kv,
        catalogPort kv, orderPort kv, cartPort kv, paymentPort kv,
        frontendNodeport kv, posNodeport kv with
  | Some _, Some _, Some _, Some _, Some _, Some _, Some _, Some _,
    Some _, Some _ => true
  | _, _, _, _, _, _, _, _, _, _ => false
  end.
End KubeVars.

(** The stack configuration, as far as this program reads it: the object
    stored under the key [kubevars], if there is one. *)
Definition StackConfig := option KubeVars.t.

(* ------------------------------------------------------------------------- *)
(** ** Kubernetes objects

    The argument objects passed to the resource constructors, with the
    fields that the program sets. *)

Definition Labels := list (string * string).

Module ObjectMeta.
Record t := make {
  name : string;
  namespace : option string;
  labels : Labels
}.
End ObjectMeta.

Module Secret.
Record t := make {
  metadata : ObjectMeta.t;
  type : string;
  data : list (string * string)
}.
End Secret.

(** The two seed scripts.  Their text (a [db.*.insertMany] batch) is not
    inspected by anything below and is kept abstract. *)
Inductive SeedScript := CatalogSeed | UsersSeed.

Module ConfigMap.
Record t := make {
  metadata : ObjectMeta.t;
  data : list (string * SeedScript)
}.
End ConfigMap.

Module EnvVar.
Inductive source :=
| value (v : string)
| secretKeyRef (name key : string).
Record t := make { name : string; from : source }.
End EnvVar.

Module ContainerPort.
Record t := make {
  name : string;
  containerPort : option Z;
  protocol : option string
}.
End ContainerPort.

Module VolumeMount.
Record t := make { mountPath : string; name : string }.
End VolumeMount.

Module Volume.
Inductive source :=
| emptyDir
| configMap (name : string).
Record t := make { name : string; from : source }.
End Volume.

Module ResourceRequirements.
Record t := make {
  requests : list (string * string);
  limits : list (string * string)
}.
End ResourceRequirements.

Module Container.
Record t := make {
  name : string;
  image : string;
  imagePullPolicy : string;
  resources : option ResourceRequirements.t;
  ports : list ContainerPort.t;
  env : list EnvVar.t;
  volumeMounts : list VolumeMount.t
}.
End Container.

Module PodSpec.
Record t := make {
  volumes : list Volume.t;
  containers : list Container.t
}.
End PodSpec.

Module PodTemplate.
(** [template.metadata.labels] and [template.spec]. *)
Record t := make {
  labels : Labels;
  spec : PodSpec.t
}.
End PodTemplate.

Module DeploymentSpec.
(** [selector.matchLabels], [replicas], [strategy.type], [template]. *)
Record t := make {
  matchLabels : Labels;
  replicas : Z;
  strategy : option string;
  template : PodTemplate.t
}.
End DeploymentSpec.

Module Deployment.
Record t := make {
  metadata : ObjectMeta.t;
  spec : DeploymentSpec.t
}.
End Deployment.

Module ServicePort.
Record t := make {
  port : option Z;
  name : string;
  protocol : string;
  targetPort : option Z;
  nodePort : option Z
}.
End ServicePort.

Module ServiceSpec.
Record t := make {
  type : option string;
  ports : list ServicePort.t;
  selector : Labels
}.
End ServiceSpec.

Module Service.
Record t := make {
  metadata : ObjectMeta.t;
  spec : ServiceSpec.t
}.
End Service.

(* ------------------------------------------------------------------------- *)
(** ** The Pulumi engine *)

Inductive Kind := KSecret | KConfigMap | KDeployment | KService | KComponent.

(** A resource object of the program: its kind and the name given to its
    constructor.  [dependsOn] lists such objects. *)
Definition Ref := (Kind * string)%type.

Inductive Args :=
| SecretArgs (a : Secret.t)
| ConfigMapArgs (a : ConfigMap.t)
| DeploymentArgs (a : Deployment.t)
| ServiceArgs (a : Service.t)
| ComponentArgs (type : string).

Module Resource.
Record t := make {
  name : string;
  args : Args;
  dependsOn : list Ref;
  parent : option Ref
}.

Definition kind (r : t) : Kind :=
  match args r with
  | SecretArgs _ => KSecret
  | ConfigMapArgs _ => KConfigMap
  | DeploymentArgs _ => KDeployment
  | ServiceArgs _ => KService
  | ComponentArgs _ => KComponent
  end.

Definition ref (r : t) : Ref := (kind r, name r).
End Resource.

(** What a run of the program can throw. *)
Inductive Error :=
| ConfigMissingError (key : string)
| TypeError.

(** The resources registered so far, oldest first. *)
Definition Engine := list Resource.t.

(** A computation: from the resources registered so far to those registered
    afterwards, with a value or the exception that stopped it. *)
Definition Run (A : Type) := Engine -> Engine * (Error + A).

Definition ret {A} (a : A) : Run A := fun e => (e, inr a).

Definition throw {A} (err : Error) : Run A := fun e => (e, inl err).

Definition bind {A B} (m : Run A) (k : A -> Run B) : Run B :=
  fun e =>
    match m e with
    | (e', inr a) => k a e'
    | (e', inl err) => (e', inl err)
    end.

Notation "x <- m ;; k" := (bind m (fun x => k))
  (at level 61, m at next level, right associativity).
Notation "m ;;; k" := (bind m (fun _ => k))
  (at level 61, right associativity).

(** A resource constructor with its options [dependsOn] and [parent]:
    registers the resource and returns the object. *)
Definition newWith (name : string) (args : Args) (dependsOn : list Ref)
    (parent : option Ref) : Run Ref :=
  fun e =>
    let r := Resource.make name args dependsOn parent in
    (e ++ [r], inr (Resource.ref r)).

Definition new (name : string) (args : Args) (dependsOn : list Ref) : Run Ref :=
  newWith name args dependsOn None.

(** [for (let x of xs) body]. *)
Fixpoint forOf {A} (xs : list A) (body : A -> Run unit) : Run unit :=
  match xs with
  | [] => ret tt
  | x :: xs' => body x ;;; forOf xs' body
  end.

(** [config.requireObject<Data>("kubevars")]: Pulumi throws a
    [ConfigMissingError] when the key has no value, and otherwise returns the
    parsed object as it is. *)
Definition requireObject (config : StackConfig) (key : string) : Run KubeVars.t :=
  match config with
  | Some kv => ret kv
  | None => throw (ConfigMissingError key)
  end.

(** [x.toString()] where [x] comes from the configuration: a [TypeError]
    on [undefined]. *)
Definition toString (x : option Z) : Run string :=
  match x with
  | Some n => ret (numberToString n)
  | None => throw TypeError
  end.

(** [toBase64(x)] where [x] comes from the configuration: [Buffer.from]
    throws a [TypeError] on [undefined]. *)
Definition toBase64' (x : option string) : Run string :=
  match x with
  | Some s => ret (toBase64 s)
  | None => throw TypeError
  end.

(** [c ? a : b] on a value that may be [undefined], which is falsy. *)
Definition truthy (c : option bool) : bool :=
  match c with
  | Some b => b
  | None => false
  end.

(* ------------------------------------------------------------------------- *)
(** ** The program (index.ts) *)

(** Shorthands for the two shapes of entries of [env]. *)
Definition literal (name v : string) : EnvVar.t :=
  EnvVar.make name (EnvVar.value v).

Definition fromSecret (name secret key : string) : EnvVar.t :=
  EnvVar.make name (EnvVar.secretKeyRef secret key).

(** [metadata: { name, labels }]. *)
Definition named (name : string) (labels : Labels) : ObjectMeta.t :=
  ObjectMeta.make name None labels.

Definition newSecret name a := new name (SecretArgs a) [].
Definition newConfigMap name a := new name (ConfigMapArgs a) [].
Definition newDeployment name a dependsOn := new name (DeploymentArgs a) dependsOn.
Definition newService name a dependsOn := new name (ServiceArgs a) dependsOn.

(** The interface [K8sService]. *)
Module K8sService.
Record t := make {
  name : string;
  service : string;
  portnumber : option Z;
  portname : string;
  dependency : Ref
}.
End K8sService.

(** A stack output: a string known when the program ends, or a value of a
    resource that is only known once the platform has created it. *)
Inductive Output :=
| known (s : string)
| ingressOf (service : Ref).

Section Program.

Variable kubeVars : KubeVars.t.

Definition frontendLoadbalancerConfig : ServicePort.t :=
  {| ServicePort.port := Some 80;
     ServicePort.name := "http-frontend";
     ServicePort.protocol := "TCP";
     ServicePort.targetPort := KubeVars.frontendPort kubeVars;
     ServicePort.nodePort := None |}.

Definition frontendNodeportConfig : ServicePort.t :=
  {| ServicePort.port := Some 80;
     ServicePort.name := "http-frontend";
     ServicePort.protocol := "TCP";
     ServicePort.targetPort := KubeVars.frontendPort kubeVars;
     ServicePort.nodePort := KubeVars.frontendNodeport kubeVars |}.

Definition passwords : list string :=
  ["cart-redis-pass"; "catalog-mongo-pass"; "order-postgres-pass";
   "users-redis-pass"; "users-mongo-pass"].

Definition createPasswords : Run unit :=
  forOf passwords (fun password =>
    encoded <- toBase64' (KubeVars.dataStorePassword kubeVars) ;;
    newSecret password
      {| Secret.metadata := ObjectMeta.make password (Some "default") [];
         Secret.type := "Opaque";
         Secret.data := [("password", encoded)] |} ;;;
    ret tt).

Definition catalogConfigMap : Run Ref :=
  newConfigMap "catalog-config-map"
    {| ConfigMap.metadata := named "catalog-initdb-config" [];
       ConfigMap.data := [("seed.js", CatalogSeed)] |}.

Definition usersConfigMap : Run Ref :=
  newConfigMap "users-config-map"
    {| ConfigMap.metadata := named "users-initdb-config" [];
       ConfigMap.data := [("seed.js", UsersSeed)] |}.

Definition cartRedisDeployment : Run Ref :=
  newDeployment "cart-redis-deployment"
    {| Deployment.metadata :=
         named "cart-redis"
           [("app", "acmefit"); ("service", "cart-redis"); ("version", "1.0.0")];
       Deployment.spec :=
         {| DeploymentSpec.matchLabels :=
              [("app", "acmefit"); ("service", "cart-redis")];
            DeploymentSpec.replicas := 1;
            DeploymentSpec.strategy := None;
            DeploymentSpec.template :=
              {| PodTemplate.labels :=
                   [("app", "acmefit"); ("service", "cart-redis")];
                 PodTemplate.spec :=
                   {| PodSpec.containers :=
                        [{| Container.name := "cart-redis";
                            Container.image := "bitnami/redis";
                            Container.imagePullPolicy := "Always";
                            Container.resources :=
                              Some {| ResourceRequirements.requests :=
                                        [("cpu", "100m"); ("memory", "100Mi")];
                                      ResourceRequirements.limits := [] |};
                            Container.ports :=
                              [ContainerPort.make "redis" (Some 6379) (Some "TCP")];
                            Container.env :=
                              [literal "REDIS_HOST" "cart-redis";
                               fromSecret "REDIS_PASSWORD" "cart-redis-pass" "password"];
                            Container.volumeMounts :=
                              [VolumeMount.make "/var/lib/redis" "cart-redis-data"] |}];
                      PodSpec.volumes :=
                        [Volume.make "cart-redis-data" Volume.emptyDir] |} |} |} |}
    [].

Definition cartDeployment : Run Ref :=
  cartPort <- toString (KubeVars.cartPort kubeVars) ;;
  usersPort <- toString (KubeVars.usersPort kubeVars) ;;
  newDeployment "cart-deployment"
    {| Deployment.metadata :=
         named "cart" [("app", "acmefit"); ("service", "cart")];
       Deployment.spec :=
         {| DeploymentSpec.matchLabels := [("app", "acmefit"); ("service", "cart")];
            DeploymentSpec.replicas := 1;
            DeploymentSpec.strategy := Some "Recreate";
            DeploymentSpec.template :=
              {| PodTemplate.labels := [("app", "acmefit"); ("service", "cart")];
                 PodTemplate.spec :=
                   {| PodSpec.volumes :=
                        [Volume.make "acmefit-cart-data" Volume.emptyDir];
                      PodSpec.containers :=
                        [{| Container.image :=
                              "gcr.io/vmwarecloudadvocacy/acmeshop-cart:latest";
                            Container.imagePullPolicy := "Always";
                            Container.name := "cart";
                            Container.env :=
                              [literal "REDIS_HOST" "cart-redis";
                               fromSecret "REDIS_PASSWORD" "cart-redis-pass" "password";
                               literal "REDIS_PORT" "6379";
                               literal "CART_PORT" cartPort;
                               literal "USER_HOST" "users";
                               literal "USER_PORT" usersPort;
                               literal "JAEGER_AGENT_HOST" "localhost";
                               literal "JAGER_AGENT_PORT" "6831";
                               literal "AUTH_MODE" "1"];
                            Container.ports :=
                              [ContainerPort.make "cart" (KubeVars.cartPort kubeVars) None];
                            Container.volumeMounts :=
                              [VolumeMount.make "/data" "acmefit-cart-data"];
                            Container.resources :=
                              Some {| ResourceRequirements.requests :=
                                        [("cpu", "100m"); ("memory", "64Mi")];
                                      ResourceRequirements.limits :=
                                        [("cpu", "500m"); ("memory", "256Mi")] |} |}]
                   |} |} |} |}
    [].

Definition catalogMongoDeployment (catalogConfigMap : Ref) : Run Ref :=
  newDeployment "catalogmongo-deployment"
    {| Deployment.metadata :=
         named "catalog-mongo" [("app", "acmefit"); ("service", "catalog-db")];
       Deployment.spec :=
         {| DeploymentSpec.matchLabels :=
              [("app", "acmefit"); ("service", "catalog-db")];
            DeploymentSpec.replicas := 1;
            DeploymentSpec.strategy := None;
            DeploymentSpec.template :=
              {| PodTemplate.labels :=
                   [("app", "acmefit"); ("service", "catalog-db")];
                 PodTemplate.spec :=
                   {| PodSpec.containers :=
                        [{| Container.name := "catalog-mongo";
                            Container.image := "mongo:4";
                            Container.imagePullPolicy := "Always";
                            Container.resources :=
                              Some {| ResourceRequirements.requests := [];
                                      ResourceRequirements.limits := [] |};
                            Container.ports :=
                              [ContainerPort.make "catalog-mongo" (Some 27017) (Some "TCP")];
                            Container.env :=
                              [literal "MONGO_INITDB_ROOT_USERNAME" "mongoadmin";
                               literal "MONGO_INITDB_DATABASE" "acmefit";
                               fromSecret "MONGO_INITDB_ROOT_PASSWORD"
                                 "catalog-mongo-pass" "password"];
                            Container.volumeMounts :=
                              [VolumeMount.make "/data/db" "mongodata";
                               VolumeMount.make "/docker-entrypoint-initdb.d"
                                 "mongo-initdb"] |}];
                      PodSpec.volumes :=
                        [Volume.make "mongodata" Volume.emptyDir;
                         Volume.make "mongo-initdb"
                           (Volume.configMap "catalog-initdb-config")] |} |} |} |}
    [catalogConfigMap].

Definition catalogDeployment : Run Ref :=
  catalogPort <- toString (KubeVars.catalogPort kubeVars) ;;
  usersPort <- toString (KubeVars.usersPort kubeVars) ;;
  newDeployment "catalog-deployment"
    {| Deployment.metadata :=
         named "catalog" [("app", "acmefit"); ("service", "catalog")];
       Deployment.spec :=
         {| DeploymentSpec.matchLabels := [("app", "acmefit"); ("service", "catalog")];
            DeploymentSpec.replicas := 1;
            DeploymentSpec.strategy := Some "Recreate";
            DeploymentSpec.template :=
              {| PodTemplate.labels := [("app", "acmefit"); ("service", "catalog")];
                 PodTemplate.spec :=
                   {| PodSpec.volumes :=
                        [Volume.make "acmefit-catalog-data" Volume.emptyDir];
                      PodSpec.containers :=
                        [{| Container.image :=
                              "gcr.io/vmwarecloudadvocacy/acmeshop-catalog:latest";
                            Container.imagePullPolicy := "Always";
                            Container.name := "catalog";
                            Container.env :=
                              [literal "CATALOG_DB_HOST" "catalog-mongo";
                               fromSecret "CATALOG_DB_PASSWORD"
                                 "catalog-mongo-pass" "password";
                               literal "CATALOG_DB_PORT" "27017";
                               literal "CATALOG_DB_USERNAME" "mongoadmin";
                               literal "CATALOG_PORT" catalogPort;
                               literal "CATALOG_VERSION" "v1";
                               literal "USERS_HOST" "users";
                               literal "USERS_PORT" usersPort;
                               literal "JAEGER_AGENT_HOST" "localhost";
                               literal "JAGER_AGENT_PORT" "6831"];
                            Container.ports :=
                              [ContainerPort.make "catalog"
                                 (KubeVars.catalogPort kubeVars) None];
                            Container.volumeMounts :=
                              [VolumeMount.make "/data" "acmefit-catalog-data"];
                            Container.resources :=
                              Some {| ResourceRequirements.requests :=
                                        [("cpu", "100m"); ("memory", "64Mi")];
                                      ResourceRequirements.limits :=
                                        [("cpu", "500m"); ("memory", "256Mi")] |} |}]
                   |} |} |} |}
    [].

Definition paymentDeployment : Run Ref :=
  paymentPort <- toString (KubeVars.paymentPort kubeVars) ;;
  usersPort <- toString (KubeVars.usersPort kubeVars) ;;
  newDeployment "payment-deployment"
    {| Deployment.metadata :=
         named "payment" [("app", "acmefit"); ("service", "payment")];
       Deployment.spec :=
         {| DeploymentSpec.matchLabels := [("app", "acmefit"); ("service", "payment")];
            DeploymentSpec.replicas := 1;
            DeploymentSpec.strategy := Some "Recreate";
            DeploymentSpec.template :=
              {| PodTemplate.labels := [("app", "acmefit"); ("service", "payment")];
                 PodTemplate.spec :=
                   {| PodSpec.volumes := [];
                      PodSpec.containers :=
                        [{| Container.image :=
                              "gcr.io/vmwarecloudadvocacy/acmeshop-payment:latest";
                            Container.imagePullPolicy := "Always";
                            Container.name := "payment";
                            Container.env :=
                              [literal "PAYMENT_PORT" paymentPort;
                               literal "USERS_HOST" "users";
                               literal "USERS_PORT" usersPort;
                               literal "JAEGER_AGENT_HOST" "localhost";
                               literal "JAGER_AGENT_PORT" "6832"];
                            Container.ports :=
                              [ContainerPort.make "payment"
                                 (KubeVars.paymentPort kubeVars) None];
                            Container.volumeMounts := [];
                            Container.resources := None |}] |} |} |} |}
    [].

Definition orderPostgresDeployment : Run Ref :=
  newDeployment "order-postgres-deployment"
    {| Deployment.metadata :=
         named "order-postgres" [("app", "acmefit"); ("service", "order-db")];
       Deployment.spec :=
         {| DeploymentSpec.matchLabels := [("app", "acmefit"); ("service", "order-db")];
            DeploymentSpec.replicas := 1;
            DeploymentSpec.strategy := None;
            DeploymentSpec.template :=
              {| PodTemplate.labels := [("app", "acmefit"); ("service", "order-db")];
                 PodTemplate.spec :=
                   {| PodSpec.containers :=
                        [{| Container.name := "postgres";
                            Container.image := "postgres:9.5";
                            Container.imagePullPolicy := "Always";
                            Container.resources := None;
                            Container.ports :=
                              [ContainerPort.make "order-postgres" (Some 5432) (Some "TCP")];
                            Container.env :=
                              [literal "POSTGRES_USER" "pgbench";
                               fromSecret "POSTGRES_PASSWORD"
                                 "order-postgres-pass" "password";
                               fromSecret "PGBENCH_PASSWORD"
                                 "order-postgres-pass" "password";
                               literal "PGDATA" "/var/lib/postgresql/data/pgdata"];
                            Container.volumeMounts :=
                              [VolumeMount.make "/var/lib/postgresql/data" "postgredb"] |}];
                      PodSpec.volumes :=
                        [Volume.make "postgredb" Volume.emptyDir] |} |} |} |}
    [].

Definition orderDeployment : Run Ref :=
  orderPort <- toString (KubeVars.orderPort kubeVars) ;;
  paymentPort <- toString (KubeVars.paymentPort kubeVars) ;;
  usersPort <- toString (KubeVars.usersPort kubeVars) ;;
  newDeployment "order-deployment"
    {| Deployment.metadata :=
         named "order" [("app", "acmefit"); ("service", "order")];
       Deployment.spec :=
         {| DeploymentSpec.matchLabels := [("app", "acmefit"); ("service", "order")];
            DeploymentSpec.replicas := 1;
            DeploymentSpec.strategy := Some "Recreate";
            DeploymentSpec.template :=
              {| PodTemplate.labels := [("app", "acmefit"); ("service", "order")];
                 PodTemplate.spec :=
                   {| PodSpec.volumes :=
                        [Volume.make "acmefit-order-data" Volume.emptyDir];
                      PodSpec.containers :=
                        [{| Container.image :=
                              "gcr.io/vmwarecloudadvocacy/acmeshop-order:latest";
                            Container.imagePullPolicy := "Always";
                            Container.name := "order";
                            Container.env :=
                              [literal "ORDER_DB_HOST" "order-postgres";
                               fromSecret "ORDER_DB_PASSWORD"
                                 "order-postgres-pass" "password";
                               literal "ORDER_DB_PORT" "5432";
                               literal "AUTH_MODE" "1";
                               literal "ORDER_DB_USERNAME" "pgbench";
                               fromSecret "PGPASSWORD" "order-postgres-pass" "password";
                               literal "ORDER_AUTH_DB" "postgres";
                               literal "ORDER_PORT" orderPort;
                               literal "PAYMENT_PORT" paymentPort;
                               literal "PAYMENT_HOST" "payment";
                               literal "USER_HOST" "users";
                               literal "USER_PORT" usersPort;
                               literal "JAEGER_AGENT_HOST" "localhost";
                               literal "JAGER_AGENT_PORT" "6831"];
                            Container.ports :=
                              [ContainerPort.make "order"
                                 (KubeVars.orderPort kubeVars) None];
                            Container.volumeMounts :=
                              [VolumeMount.make "/data" "acmefit-order-data"];
                            Container.resources :=
                              Some {| ResourceRequirements.requests :=
                                        [("cpu", "100m"); ("memory", "64Mi")];
                                      ResourceRequirements.limits :=
                                        [("cpu", "500m"); ("memory", "256Mi")] |} |}]
                   |} |} |} |}
    [].

Definition usersMongoDeployment (usersConfigMap : Ref) : Run Ref :=
  newDeployment "usersmongo-deployment"
    {| Deployment.metadata :=
         named "users-mongo" [("app", "acmefit"); ("service", "users-mongo")];
       Deployment.spec :=
         {| DeploymentSpec.matchLabels :=
              [("app", "acmefit"); ("service", "users-mongo")];
            DeploymentSpec.replicas := 1;
            DeploymentSpec.strategy := None;
            DeploymentSpec.template :=
              {| PodTemplate.labels :=
                   [("app", "acmefit"); ("service", "users-mongo")];
                 PodTemplate.spec :=
                   {| PodSpec.containers :=
                        [{| Container.name := "users-mongo";
                            Container.image := "mongo:4";
                            Container.imagePullPolicy := "Always";
                            Container.resources :=
                              Some {| ResourceRequirements.requests := [];
                                      ResourceRequirements.limits := [] |};
                            Container.ports :=
                              [ContainerPort.make "users-mongo" (Some 27017) (Some "TCP")];
                            Container.env :=
                              [literal "MONGO_INITDB_ROOT_USERNAME" "mongoadmin";
                               literal "MONGO_INITDB_DATABASE" "acmefit";
                               fromSecret "MONGO_INITDB_ROOT_PASSWORD"
                                 "users-mongo-pass" "password"];
                            Container.volumeMounts :=
                              [VolumeMount.make "/data/db" "mongodata";
                               VolumeMount.make "/docker-entrypoint-initdb.d"
                                 "mongo-initdb"] |}];
                      PodSpec.volumes :=
                        [Volume.make "mongodata" Volume.emptyDir;
                         Volume.make "mongo-initdb"
                           (Volume.configMap "users-initdb-config")] |} |} |} |}
    [usersConfigMap].

Definition usersRedisDeployment : Run Ref :=
  newDeployment "users-redis-deployment"
    {| Deployment.metadata :=
         named "users-redis" [("app", "acmefit"); ("service", "users-redis")];
       Deployment.spec :=
         {| DeploymentSpec.matchLabels :=
              [("app", "acmefit"); ("service", "users-redis")];
            DeploymentSpec.replicas := 1;
            DeploymentSpec.strategy := None;
            DeploymentSpec.template :=
              {| PodTemplate.labels :=
                   [("app", "acmefit"); ("service", "users-redis")];
                 PodTemplate.spec :=
                   {| PodSpec.containers :=
                        [{| Container.name := "users-redis";
                            Container.image := "bitnami/redis";
                            Container.imagePullPolicy := "Always";
                            Container.resources :=
                              Some {| ResourceRequirements.requests :=
                                        [("cpu", "100m"); ("memory", "100Mi")];
                                      ResourceRequirements.limits := [] |};
                            Container.ports :=
                              [ContainerPort.make "redis" (Some 6379) (Some "TCP")];
                            Container.env :=
                              [literal "REDIS_HOST" "users-redis";
                               fromSecret "REDIS_PASSWORD" "users-redis-pass" "password"];
                            Container.volumeMounts :=
                              [VolumeMount.make "/var/lib/redis" "users-redis-data"] |}];
                      PodSpec.volumes :=
                        [Volume.make "users-redis-data" Volume.emptyDir] |} |} |} |}
    [].

Definition usersDeployment : Run Ref :=
  usersPort <- toString (KubeVars.usersPort kubeVars) ;;
  newDeployment "users-deployment"
    {| Deployment.metadata :=
         named "users" [("app", "acmefit"); ("service", "users")];
       Deployment.spec :=
         {| DeploymentSpec.matchLabels := [("app", "acmefit"); ("service", "users")];
            DeploymentSpec.replicas := 1;
            DeploymentSpec.strategy := Some "Recreate";
            DeploymentSpec.template :=
              {| PodTemplate.labels := [("app", "acmefit"); ("service", "users")];
                 PodTemplate.spec :=
                   {| PodSpec.volumes :=
                        [Volume.make "acmefit-users-data" Volume.emptyDir];
                      PodSpec.containers :=
                        [{| Container.image :=
                              "gcr.io/vmwarecloudadvocacy/acmeshop-user:latest";
                            Container.imagePullPolicy := "Always";
                            Container.name := "users";
                            Container.env :=
                              [literal "USERS_DB_HOST" "users-mongo";
                               fromSecret "USERS_DB_PASSWORD" "users-mongo-pass" "password";
                               literal "USERS_DB_PORT" "27017";
                               literal "USERS_DB_USERNAME" "mongoadmin";
                               literal "REDIS_HOST" "users-redis";
                               fromSecret "REDIS_PASSWORD" "users-redis-pass" "password";
                               literal "USER_PORT" usersPort;
                               literal "JAEGER_AGENT_HOST" "localhost";
                               literal "JAGER_AGENT_PORT" "6831"];
                            Container.ports :=
                              [ContainerPort.make "users"
                                 (KubeVars.usersPort kubeVars) None];
                            Container.volumeMounts :=
                              [VolumeMount.make "/data" "acmefit-users-data"];
                            Container.resources :=
                              Some {| ResourceRequirements.requests :=
                                        [("cpu", "100m"); ("memory", "64Mi")];
                                      ResourceRequirements.limits :=
                                        [("cpu", "500m"); ("memory", "256Mi")] |} |}]
                   |} |} |} |}
    [].

(** The table [services]; its entries refer to the deployments created
    above. *)
Definition services
    (cartRedisDeployment cartDeployment catalogMongoDeployment
     catalogDeployment paymentDeployment orderPostgresDeployment
     orderDeployment usersMongoDeployment usersRedisDeployment
     usersDeployment : Ref) : list K8sService.t :=
  [ K8sService.make "cart-redis" "cart-redis" (Some 6379) "redis-cart"
      cartRedisDeployment;
    K8sService.make "cart" "cart" (KubeVars.cartPort kubeVars) "http-cart"
      cartDeployment;
    K8sService.make "catalog-mongo" "catalog-db" (Some 27017) "mongo-catalog"
      catalogMongoDeployment;
    K8sService.make "catalog" "catalog" (KubeVars.catalogPort kubeVars) "http-catalog"
      catalogDeployment;
    K8sService.make "payment" "payment" (KubeVars.paymentPort kubeVars) "http-payment"
      paymentDeployment;
    K8sService.make "order-postgres" "order-db" (Some 5432) "postgres-order"
      orderPostgresDeployment;
    K8sService.make "order" "order" (KubeVars.orderPort kubeVars) "http-order"
      orderDeployment;
    K8sService.make "users-mongo" "users-mongo" (Some 27017) "mongo-users"
      usersMongoDeployment;
    K8sService.make "users-redis" "users-redis" (Some 6379) "redis-users"
      usersRedisDeployment;
    K8sService.make "users" "users" (KubeVars.usersPort kubeVars) "http-users"
      usersDeployment ].

Definition createServices (services : list K8sService.t) : Run unit :=
  forOf services (fun service =>
    newService (K8sService.name service ++ "-service")%string
      {| Service.metadata :=
           named (K8sService.name service)
             [("app", "acmefit"); ("service", K8sService.service service)];
         Service.spec :=
           {| ServiceSpec.type := None;
              ServiceSpec.ports :=
                [{| ServicePort.port := K8sService.portnumber service;
                    ServicePort.name := K8sService.portname service;
                    ServicePort.protocol := "TCP";
                    ServicePort.targetPort := None;
                    ServicePort.nodePort := None |}];
              ServiceSpec.selector :=
                [("app", "acmefit"); ("service", K8sService.service service)] |} |}
      [K8sService.dependency service] ;;;
    ret tt).

Definition frontendDeployment : Run Ref :=
  frontendPort <- toString (KubeVars.frontendPort kubeVars) ;;
  usersPort <- toString (KubeVars.usersPort kubeVars) ;;
  catalogPort <- toString (KubeVars.catalogPort kubeVars) ;;
  orderPort <- toString (KubeVars.orderPort kubeVars) ;;
  cartPort <- toString (KubeVars.cartPort kubeVars) ;;
  newDeployment "frontend-deployment"
    {| Deployment.metadata :=
         named "frontend" [("app", "acmefit"); ("service", "frontend")];
       Deployment.spec :=
         {| DeploymentSpec.matchLabels := [("app", "acmefit"); ("service", "frontend")];
            DeploymentSpec.replicas := 1;
            DeploymentSpec.strategy := Some "Recreate";
            DeploymentSpec.template :=
              {| PodTemplate.labels := [("app", "acmefit"); ("service", "frontend")];
                 PodTemplate.spec :=
                   {| PodSpec.volumes := [];
                      PodSpec.containers :=
                        [{| Container.image :=
                              "gcr.io/vmwarecloudadvocacy/acmeshop-front-end:latest";
                            Container.imagePullPolicy := "Always";
                            Container.name := "frontend";
                            Container.env :=
                              [literal "FRONTEND_PORT" frontendPort;
                               literal "USERS_HOST" "users";
                               literal "CATALOG_HOST" "catalog";
                               literal "ORDER_HOST" "order";
                               literal "CART_HOST" "cart";
                               literal "USERS_PORT" usersPort;
                               literal "CATALOG_PORT" catalogPort;
                               literal "ORDER_PORT" orderPort;
                               literal "CART_PORT" cartPort;
                               literal "JAEGER_AGENT_HOST" "localhost";
                               literal "JAGER_AGENT_PORT" "6832"];
                            Container.ports :=
                              [ContainerPort.make "frontend"
                                 (KubeVars.frontendPort kubeVars) None];
                            Container.volumeMounts := [];
                            Container.resources := None |}] |} |} |} |}
    [].

Definition frontendService (frontendDeployment : Ref) : Run Ref :=
  newService "frontend-service"
    {| Service.metadata :=
         named "frontend" [("app", "acmefit"); ("service", "frontend")];
       Service.spec :=
         {| ServiceSpec.type :=
              Some (if truthy (KubeVars.isSingleNode kubeVars)
                    then "NodePort" else "LoadBalancer");
            ServiceSpec.ports :=
              [if truthy (KubeVars.isSingleNode kubeVars)
               then frontendNodeportConfig else frontendLoadbalancerConfig];
            ServiceSpec.selector :=
              [("app", "acmefit"); ("service", "frontend")] |} |}
    [frontendDeployment].

Definition posDeployment : Run Ref :=
  newDeployment "pos-deployment"
    {| Deployment.metadata :=
         named "pos" [("app", "acmefit"); ("service", "pos")];
       Deployment.spec :=
         {| DeploymentSpec.matchLabels := [("app", "acmefit"); ("service", "pos")];
            DeploymentSpec.replicas := 1;
            DeploymentSpec.strategy := Some "Recreate";
            DeploymentSpec.template :=
              {| PodTemplate.labels := [("app", "acmefit"); ("service", "pos")];
                 PodTemplate.spec :=
                   {| PodSpec.volumes := [];
                      PodSpec.containers :=
                        [{| Container.image :=
                              "gcr.io/vmwarecloudadvocacy/acmeshop-pos:v0.1.0-beta";
                            Container.imagePullPolicy := "Always";
                            Container.name := "pos";
                            Container.env :=
                              [literal "HTTP_PORT" "7777";
                               literal "DATASTORE" "remote";
                               literal "FRONTEND_HOST"
                                 "frontend.default.svc.cluster.local"];
                            Container.ports :=
                              [ContainerPort.make "pos" (Some 7777) None];
                            Container.volumeMounts := [];
                            Container.resources := None |}] |} |} |} |}
    [].

Definition posService (posDeployment : Ref) : Run Ref :=
  newService "pos-service"
    {| Service.metadata := named "pos" [("app", "acmefit"); ("service", "pos")];
       Service.spec :=
         {| ServiceSpec.type := Some "NodePort";
            ServiceSpec.ports :=
              [{| ServicePort.port := Some 7777;
                  ServicePort.name := "http-pos";
                  ServicePort.protocol := "TCP";
                  ServicePort.targetPort := Some 7777;
                  ServicePort.nodePort := KubeVars.posNodeport kubeVars |}];
            ServiceSpec.selector := [("app", "acmefit"); ("service", "pos")] |} |}
    [posDeployment].

(** The exported [frontendIP].  String concatenation renders [undefined]
    as the word. *)
Definition frontendIP (frontendService : Ref) : Output :=
  if truthy (KubeVars.isSingleNode kubeVars)
  then known ("http://localhost:" ++
              match ServicePort.nodePort frontendNodeportConfig with
              | Some n => numberToString n
              | None => "undefined"
              end)%string
  else ingressOf frontendService.

(** The statements of index.ts after the configuration has been read, in
    source order. *)
Definition resources : Run Output :=
  createPasswords ;;;
  catalogConfigMap <- catalogConfigMap ;;
  usersConfigMap <- usersConfigMap ;;
  cartRedisDeployment <- cartRedisDeployment ;;
  cartDeployment <- cartDeployment ;;
  catalogMongoDeployment <- catalogMongoDeployment catalogConfigMap ;;
  catalogDeployment <- catalogDeployment ;;
  paymentDeployment <- paymentDeployment ;;
  orderPostgresDeployment <- orderPostgresDeployment ;;
  orderDeployment <- orderDeployment ;;
  usersMongoDeployment <- usersMongoDeployment usersConfigMap ;;
  usersRedisDeployment <- usersRedisDeployment ;;
  usersDeployment <- usersDeployment ;;
  createServices
    (services cartRedisDeployment cartDeployment catalogMongoDeployment
       catalogDeployment paymentDeployment orderPostgresDeployment
       orderDeployment usersMongoDeployment usersRedisDeployment
       usersDeployment) ;;;
  frontendDeployment <- frontendDeployment ;;
  frontendService <- frontendService frontendDeployment ;;
  posDeployment <- posDeployment ;;
  posService posDeployment ;;;
  ret (frontendIP frontendService).

End Program.

(** The component [ACMESecrets] of secrets.ts: its constructor registers the
    component and then one Secret per entry of [passwords], each a child of
    the component.  index.ts does not instantiate it. *)
Definition ACMESecrets (passwords : list string) (secretValue : string) : Run Ref :=
  this <- newWith "acmefitness-datastore-passwords"
            (ComponentArgs "pulumi:acmefitness:secret") [] None ;;
  forOf passwords (fun password =>
    newWith password
      (SecretArgs
         {| Secret.metadata := ObjectMeta.make password (Some "default") [];
            Secret.type := "Opaque";
            Secret.data := [("password", toBase64 secretValue)] |})
      [] (Some this) ;;;
    ret tt) ;;;
  ret this.

(** The whole program: read [kubevars], then create the resources. *)
Definition program (config : StackConfig) : Run Output :=
  kubeVars <- requireObject config "kubevars" ;;
  resources kubeVars.

(** A run of the program against a fresh engine. *)
Definition build (config : StackConfig) : Engine * (Error + Output) :=
  program config [].

(** The resources a run has registered when it ends, normally or not. *)
Definition registered (config : StackConfig) : Engine := fst (build config).

(** The resource graph of a configuration that supplies every field. *)
Definition graph (d : Data.t) : Engine :=
  registered (Some (KubeVars.supplied d)).

(** The configuration of Pulumi.dev.yaml. *)
Definition devConfig : Data.t :=
  {| Data.isSingleNode := true;
     Data.dataStorePassword := "helloworld";
     Data.frontendPort := 3000;
     Data.usersPort := 8083;
     Data.catalogPort := 8082;
     Data.orderPort := 6000;
     Data.cartPort := 5000;
     Data.paymentPort := 9000;
     Data.frontendNodeport := 30430;
     Data.posNodeport := 30431 |}.

(* ------------------------------------------------------------------------- *)
(** ** Reading a resource graph *)

(** The resources of one kind, in registration order, each with its
    argument object. *)
Definition secretsOf (g : Engine) : list (Resource.t * Secret.t) :=
  flat_map (fun r => match Resource.args r with
                     | SecretArgs a => [(r, a)]
                     | _ => []
                     end) g.

Definition configMapsOf (g : Engine) : list (Resource.t * ConfigMap.t) :=
  flat_map (fun r => match Resource.args r with
                     | ConfigMapArgs a => [(r, a)]
                     | _ => []
                     end) g.

Definition deploymentsOf (g : Engine) : list (Resource.t * Deployment.t) :=
  flat_map (fun r => match Resource.args r with
                     | DeploymentArgs a => [(r, a)]
                     | _ => []
                     end) g.

Definition servicesOf (g : Engine) : list (Resource.t * Service.t) :=
  flat_map (fun r => match Resource.args r with
                     | ServiceArgs a => [(r, a)]
                     | _ => []
                     end) g.

Definition Kind_eqb (a b : Kind) : bool :=
  match a, b with
  | KSecret, KSecret | KConfigMap, KConfigMap | KDeployment, KDeployment
  | KService, KService | KComponent, KComponent => true
  | _, _ => false
  end.

Definition Ref_eqb (a b : Ref) : bool :=
  Kind_eqb (fst a) (fst b) && String.eqb (snd a) (snd b).

(** The resource object a reference stands for. *)
Definition lookup (g : Engine) (x : Ref) : option Resource.t :=
  find (fun r => Ref_eqb (Resource.ref r) x) g.

Definition deploymentAt (g : Engine) (x : Ref) : option Deployment.t :=
  match lookup g x with
  | Some r => match Resource.args r with
              | DeploymentArgs w => Some w
              | _ => None
              end
  | None => None
  end.

(** Kubernetes names and labels. *)
Definition serviceName (s : Service.t) : string :=
  ObjectMeta.name (Service.metadata s).

Definition workloadName (w : Deployment.t) : string :=
  ObjectMeta.name (Deployment.metadata w).

Definition secretName (s : Secret.t) : string :=
  ObjectMeta.name (Secret.metadata s).

Definition configMapName (c : ConfigMap.t) : string :=
  ObjectMeta.name (ConfigMap.metadata c).

(** The labels a workload puts on its pods: [spec.template.metadata.labels]. *)
Definition podLabels (w : Deployment.t) : Labels :=
  PodTemplate.labels (DeploymentSpec.template (Deployment.spec w)).

Definition selector (s : Service.t) : Labels :=
  ServiceSpec.selector (Service.spec s).

Definition containers (w : Deployment.t) : list Container.t :=
  PodSpec.containers (PodTemplate.spec (DeploymentSpec.template (Deployment.spec w))).

Definition volumes (w : Deployment.t) : list Volume.t :=
  PodSpec.volumes (PodTemplate.spec (DeploymentSpec.template (Deployment.spec w))).

(** The container ports a workload declares. *)
Definition containerPorts (w : Deployment.t) : list (option Z) :=
  map ContainerPort.containerPort (flat_map Container.ports (containers w)).

Definition servicePorts (s : Service.t) : list ServicePort.t :=
  ServiceSpec.ports (Service.spec s).

(** The Services with a given Kubernetes name. *)
Definition servicesNamed (name : string) (g : Engine) : list Service.t :=
  filter (fun s => String.eqb (serviceName s) name) (map snd (servicesOf g)).

Definition workloadsNamed (name : string) (g : Engine) : list Deployment.t :=
  filter (fun w => String.eqb (workloadName w) name) (map snd (deploymentsOf g)).

(** Label selection as Kubernetes does it: a non-empty selector selects the
    pods that carry each of its pairs. *)
Definition label_eqb (a b : string * string) : bool :=
  String.eqb (fst a) (fst b) && String.eqb (snd a) (snd b).

Definition selects (s : Service.t) (w : Deployment.t) : bool :=
  match selector s with
  | [] => false
  | sel => forallb (fun l => existsb (label_eqb l) (podLabels w)) sel
  end.

(** The names of the Secrets that the environment of a workload refers to. *)
Definition secretRefs (w : Deployment.t) : list string :=
  flat_map (fun e => match EnvVar.from e with
                     | EnvVar.secretKeyRef n _ => [n]
                     | EnvVar.value _ => []
                     end)
           (flat_map Container.env (containers w)).

(** The names of the ConfigMaps that a workload mounts. *)
Definition configMapRefs (w : Deployment.t) : list string :=
  flat_map (fun v => match Volume.from v with
                     | Volume.configMap n => [n]
                     | Volume.emptyDir => []
                     end)
           (volumes w).

(** Explicit ordering.  [dependsOnEdge g a b]: the resource [a] of [g] lists
    [b] in its [dependsOn], so the engine creates [b] first.
    [createdAfter] is the order these edges generate. *)
Definition dependsOnEdge (g : Engine) (a b : Ref) : Prop :=
  exists r, In r g /\ Resource.ref r = a /\ In b (Resource.dependsOn r).

Inductive createdAfter (g : Engine) : Ref -> Ref -> Prop :=
| after_edge a b : dependsOnEdge g a b -> createdAfter g a b
| after_path a b c : dependsOnEdge g a b -> createdAfter g b c -> createdAfter g a c.

(** Submission order.  [position g x] is the index at which the resource
    [x] was registered; [registeredBefore g a b]: [a] was registered at an
    earlier index than [b]. *)
Fixpoint position (g : Engine) (x : Ref) : option nat :=
  match g with
  | [] => None
  | r :: g' => if Ref_eqb (Resource.ref r) x then Some O
               else option_map S (position g' x)
  end.

Definition registeredBefore (g : Engine) (a b : Ref) : Prop :=
  exists i j, position g a = Some i /\ position g b = Some j /\ (i < j)%nat.

(** The Secrets and ConfigMaps with a given Kubernetes name. *)
Definition secretsNamed (name : string) (g : Engine) : list (Resource.t * Secret.t) :=
  filter (fun rs => String.eqb (secretName (snd rs)) name) (secretsOf g).

Definition configMapsNamed (name : string) (g : Engine)
  : list (Resource.t * ConfigMap.t) :=
  filter (fun rc => String.eqb (configMapName (snd rc)) name) (configMapsOf g).

(** The exposure of a Service: its [type] and the [nodePort] of each of its
    port entries. *)
Definition exposure (s : Service.t) : option string * list (option Z) :=
  (ServiceSpec.type (Service.spec s), map ServicePort.nodePort (servicePorts s)).

(* ------------------------------------------------------------------------- *)
(** ** The properties checked on a graph *)

(** The workloads that face the users of the shop, as opposed to their
    datastores. *)
Definition application : list string :=
  ["frontend"; "users"; "catalog"; "order"; "cart"; "payment"; "pos"].

Definition isApplication (w : Deployment.t) : bool :=
  existsb (String.eqb (workloadName w)) application.

Definition isPointOfSale (name : string) : bool := String.eqb name "pos".

(** The Services of a graph that select the pods of a workload. *)
Definition frontingServices (g : Engine) (w : Deployment.t) : list Service.t :=
  filter (fun s => selects s w) (map snd (servicesOf g)).

(** The container ports of the workload are the ports of the Service. *)
Definition portsAgree (w : Deployment.t) (s : Service.t) : Prop :=
  containerPorts w = map ServicePort.port (servicePorts s).

(** A Service depends on one resource, a workload of the graph, and its
    selector is the label set of that workload's pods. *)
Definition selectorMatchesTarget (g : Engine) (rs : Resource.t * Service.t) : Prop :=
  exists target w,
    Resource.dependsOn (fst rs) = [target] /\
    deploymentAt g target = Some w /\
    selector (snd rs) = podLabels w /\
    selects (snd rs) w = true.

(** Each ConfigMap a workload mounts is in the graph, once, and the workload
    lists it in its [dependsOn]. *)
Definition mountsAfterConfigMap (g : Engine) (rw : Resource.t * Deployment.t) : Prop :=
  Forall (fun n => exists rc,
              configMapsNamed n g = [rc] /\
              In (Resource.ref (fst rc)) (Resource.dependsOn (fst rw)))
         (configMapRefs (snd rw)).

(** A Service selects some workload of the graph, and lists every workload
    it selects in its [dependsOn]. *)
Definition afterFrontedWorkloads (g : Engine) (rs : Resource.t * Service.t) : Prop :=
  existsb (fun rw => selects (snd rs) (snd rw)) (deploymentsOf g) = true /\
  Forall (fun rw => selects (snd rs) (snd rw) = true ->
                    In (Resource.ref (fst rw)) (Resource.dependsOn (fst rs)))
         (deploymentsOf g).

(** Each Secret the environment of a workload refers to is in the graph,
    once, and an explicit ordering path leads from the workload to it. *)
Definition afterSecretsExplicitly (g : Engine) (rw : Resource.t * Deployment.t) : Prop :=
  Forall (fun n => exists rs,
              secretsNamed n g = [rs] /\
              createdAfter g (Resource.ref (fst rw)) (Resource.ref (fst rs)))
         (secretRefs (snd rw)).

(** The same, with submission order in place of the explicit path. *)
Definition afterSecretsInSubmissionOrder (g : Engine)
    (rw : Resource.t * Deployment.t) : Prop :=
  Forall (fun n => exists rs,
              secretsNamed n g = [rs] /\
              registeredBefore g (Resource.ref (fst rs)) (Resource.ref (fst rw)))
         (secretRefs (snd rw)).

(** A run that fails fast on its configuration: a configuration error, and
    nothing registered. *)
Definition failsFast (config : StackConfig) : Prop :=
  exists key, build config = ([], inl (ConfigMissingError key)).

(** The run ended with a configuration error. *)
Definition endsWithConfigurationError (outcome : Engine * (Error + Output)) : bool :=
  match snd outcome with
  | inl (ConfigMissingError _) => true
  | _ => false
  end.

(** The fields whose value the program cannot do without: it calls a method
    on them, or hands them to [Buffer.from]. *)
Definition dereferenced (kv : KubeVars.t) : bool :=
  match KubeVars.dataStorePassword kv, KubeVars.cartPort kv, KubeVars.usersPort kv,
        KubeVars.catalogPort kv, KubeVars.paymentPort kv, KubeVars.orderPort kv,
        KubeVars.frontendPort kv with
  | Some _, Some _, Some _, Some _, Some _, Some _, Some _ => true
  | _, _, _, _, _, _, _ => false
  end.

(** The exceptions a computation can end with all satisfy [P]. *)
Definition throwsOnly {A} (P : Error -> Prop) (m : Run A) : Prop :=
  forall e e' err, m e = (e', inl err) -> P err.

(** The numbers of resources of a graph: Secrets, ConfigMaps, workloads and
    Services other than those of the point of sale, and the workloads and
    Services of the point of sale. *)
Definition census (g : Engine) : nat * nat * (nat * nat) * (nat * nat) :=
  (List.length (secretsOf g), List.length (configMapsOf g),
   (List.length (filter (fun rw => negb (isPointOfSale (workloadName (snd rw))))
                   (deploymentsOf g)),
    List.length (filter (fun rs => negb (isPointOfSale (serviceName (snd rs))))
                   (servicesOf g))),
   (List.length (filter (fun rw => isPointOfSale (workloadName (snd rw)))
                   (deploymentsOf g)),
    List.length (filter (fun rs => isPointOfSale (serviceName (snd rs)))
                   (servicesOf g)))).

(** The [nodePort]s of the Services with a given name. *)
Definition nodePortsOf (name : string) (g : Engine) : list (option Z) :=
  flat_map (fun s => map ServicePort.nodePort (servicePorts s)) (servicesNamed name g).

(** A configuration with its [isSingleNode] set to [b]. *)
Definition withSingleNode (b : bool) (d : Data.t) : Data.t :=
  {| Data.isSingleNode := b;
     Data.dataStorePassword := Data.dataStorePassword d;
     Data.frontendPort := Data.frontendPort d;
     Data.usersPort := Data.usersPort d;
     Data.catalogPort := Data.catalogPort d;
     Data.orderPort := Data.orderPort d;
     Data.cartPort := Data.cartPort d;
     Data.paymentPort := Data.paymentPort d;
     Data.frontendNodeport := Data.frontendNodeport d;
     Data.posNodeport := Data.posNodeport d |}.

(** A port entry without its [nodePort] field. *)
Definition withoutNodePort (p : ServicePort.t) : ServicePort.t :=
  {| ServicePort.port := ServicePort.port p;
     ServicePort.name := ServicePort.name p;
     ServicePort.protocol := ServicePort.protocol p;
     ServicePort.targetPort := ServicePort.targetPort p;
     ServicePort.nodePort := None |}.

(** The configuration of Pulumi.dev.yaml with [posNodeport] left out. *)
Definition devWithoutPosNodeport : KubeVars.t :=
  {| KubeVars.isSingleNode := Some true;
     KubeVars.dataStorePassword := Some "helloworld";
     KubeVars.frontendPort := Some 3000;
     KubeVars.usersPort := Some 8083;
     KubeVars.catalogPort := Some 8082;
     KubeVars.orderPort := Some 6000;
     KubeVars.cartPort := Some 5000;
     KubeVars.paymentPort := Some 9000;
     KubeVars.frontendNodeport := Some 30430;
     KubeVars.posNodeport := None |}.

(** The configuration of Pulumi.dev.yaml with [cartPort] left out. *)
Definition devWithoutCartPort : KubeVars.t :=
  {| KubeVars.isSingleNode := Some true;
     KubeVars.dataStorePassword := Some "helloworld";
     KubeVars.frontendPort := Some 3000;
     KubeVars.usersPort := Some 8083;
     KubeVars.catalogPort := Some 8082;
     KubeVars.orderPort := Some 6000;
     KubeVars.cartPort := None;
     KubeVars.paymentPort := Some 9000;
     KubeVars.frontendNodeport := Some 30430;
     KubeVars.posNodeport := Some 30431 |}.

(* ------------------------------------------------------------------------- *)
(** ** The second stack output *)

(** The exported [posIP]:
    [posService.spec.ports[0].nodePort.apply(port => "http://localhost:" + port)].
    The node port is read from the Service as the platform created it, so the
    output is only known after deployment; property access on a resource
    output does not throw.  The model keeps the Service and the function
    applied to the port the platform reports. *)
Definition posIP (posService : Ref) : Ref * (Z -> string) :=
  (posService, fun port => ("http://localhost:" ++ numberToString port)%string).

(* ------------------------------------------------------------------------- *)
(** ** Further readings of a graph *)

(** [spec.selector.matchLabels] of a workload. *)
Definition matchLabels (w : Deployment.t) : Labels :=
  DeploymentSpec.matchLabels (Deployment.spec w).

Definition envOf (w : Deployment.t) : list EnvVar.t :=
  flat_map Container.env (containers w).

(** The environment variables given as literal values, and those read from
    a Secret (variable, Secret name, key). *)
Definition literalEnv (w : Deployment.t) : list (string * string) :=
  flat_map (fun e => match EnvVar.from e with
                     | EnvVar.value v => [(EnvVar.name e, v)]
                     | EnvVar.secretKeyRef _ _ => []
                     end) (envOf w).

Definition secretKeyRefs (w : Deployment.t) : list (string * string) :=
  flat_map (fun e => match EnvVar.from e with
                     | EnvVar.value _ => []
                     | EnvVar.secretKeyRef n k => [(n, k)]
                     end) (envOf w).

(** The literal value of an environment variable, if the workload sets it. *)
Definition envValue (name : string) (w : Deployment.t) : option string :=
  option_map snd (find (fun e => String.eqb (fst e) name) (literalEnv w)).

Definition mountedVolumes (w : Deployment.t) : list string :=
  map VolumeMount.name (flat_map Container.volumeMounts (containers w)).

Definition declaredVolumes (w : Deployment.t) : list string :=
  map Volume.name (volumes w).

(** The Kubernetes metadata of a resource, if it is a Kubernetes object. *)
Definition metadataOf (r : Resource.t) : option ObjectMeta.t :=
  match Resource.args r with
  | SecretArgs a => Some (Secret.metadata a)
  | ConfigMapArgs a => Some (ConfigMap.metadata a)
  | DeploymentArgs a => Some (Deployment.metadata a)
  | ServiceArgs a => Some (Service.metadata a)
  | ComponentArgs _ => None
  end.

(** What identifies a resource and orders it: its kind and Pulumi name, its
    [dependsOn] and [parent], and its Kubernetes name, namespace and labels. *)
Definition identity (r : Resource.t)
  : Ref * list Ref * option Ref * option ObjectMeta.t :=
  (Resource.ref r, Resource.dependsOn r, Resource.parent r, metadataOf r).

(** The Kubernetes identity of an object: its kind and [metadata.name]. *)
Definition kubernetesNames (g : Engine) : list (Kind * string) :=
  flat_map (fun r => match metadataOf r with
                     | Some m => [(Resource.kind r, ObjectMeta.name m)]
                     | None => []
                     end) g.

(** No string occurs twice. *)
Fixpoint distinct (l : list string) : bool :=
  match l with
  | [] => true
  | x :: l' => negb (existsb (String.eqb x) l') && distinct l'
  end.







(** The workloads of a graph whose environment refers to a Secret. *)
Definition consumersOf (secret : string) (g : Engine) : list string :=
  map (fun rw => workloadName (snd rw))
      (filter (fun rw => existsb (String.eqb secret) (secretRefs (snd rw)))
              (deploymentsOf g)).

(** The workloads of a graph that mount a ConfigMap, with the mount paths of
    the volume. *)
Definition mountersOf (configMap : string) (g : Engine) : list (string * list string) :=
  flat_map (fun rw =>
    flat_map (fun v =>
      match Volume.from v with
      | Volume.configMap n =>
          if String.eqb n configMap
          then [(workloadName (snd rw),
                 map VolumeMount.mountPath
                     (filter (fun m => String.eqb (VolumeMount.name m) (Volume.name v))
                             (flat_map Container.volumeMounts (containers (snd rw)))))]
          else []
      | Volume.emptyDir => []
      end) (volumes (snd rw))) (deploymentsOf g).

(** Two graphs with the same resources in the same order, equal everywhere
    but at the resources named in [names]. *)
Definition differOnlyAt (names : list string) (g g' : Engine) : Prop :=
  Forall2 (fun r r' => Resource.ref r = Resource.ref r' /\
                       (existsb (String.eqb (Resource.name r)) names = true \/ r = r'))
          g g'.

(* ------------------------------------------------------------------------- *)
(** ** Changing one field of a configuration *)

Definition withPassword (v : string) (d : Data.t) : Data.t :=
  {| Data.isSingleNode := Data.isSingleNode d;
     Data.dataStorePassword := v;
     Data.frontendPort := Data.frontendPort d;
     Data.usersPort := Data.usersPort d;
     Data.catalogPort := Data.catalogPort d;
     Data.orderPort := Data.orderPort d;
     Data.cartPort := Data.cartPort d;
     Data.paymentPort := Data.paymentPort d;
     Data.frontendNodeport := Data.frontendNodeport d;
     Data.posNodeport := Data.posNodeport d |}.

Definition withFrontendPort (v : Z) (d : Data.t) : Data.t :=
  {| Data.isSingleNode := Data.isSingleNode d;
     Data.dataStorePassword := Data.dataStorePassword d;
     Data.frontendPort := v;
     Data.usersPort := Data.usersPort d;
     Data.catalogPort := Data.catalogPort d;
     Data.orderPort := Data.orderPort d;
     Data.cartPort := Data.cartPort d;
     Data.paymentPort := Data.paymentPort d;
     Data.frontendNodeport := Data.frontendNodeport d;
     Data.posNodeport := Data.posNodeport d |}.

Definition withUsersPort (v : Z) (d : Data.t) : Data.t :=
  {| Data.isSingleNode := Data.isSingleNode d;
     Data.dataStorePassword := Data.dataStorePassword d;
     Data.frontendPort := Data.frontendPort d;
     Data.usersPort := v;
     Data.catalogPort := Data.catalogPort d;
     Data.orderPort := Data.orderPort d;
     Data.cartPort := Data.cartPort d;
     Data.paymentPort := Data.paymentPort d;
     Data.frontendNodeport := Data.frontendNodeport d;
     Data.posNodeport := Data.posNodeport d |}.

Definition withCatalogPort (v : Z) (d : Data.t) : Data.t :=
  {| Data.isSingleNode := Data.isSingleNode d;
     Data.dataStorePassword := Data.dataStorePassword d;
     Data.frontendPort := Data.frontendPort d;
     Data.usersPort := Data.usersPort d;
     Data.catalogPort := v;
     Data.orderPort := Data.orderPort d;
     Data.cartPort := Data.cartPort d;
     Data.paymentPort := Data.paymentPort d;
     Data.frontendNodeport := Data.frontendNodeport d;
     Data.posNodeport := Data.posNodeport d |}.

Definition withOrderPort (v : Z) (d : Data.t) : Data.t :=
  {| Data.isSingleNode := Data.isSingleNode d;
     Data.dataStorePassword := Data.dataStorePassword d;
     Data.frontendPort := Data.frontendPort d;
     Data.usersPort := Data.usersPort d;
     Data.catalogPort := Data.catalogPort d;
     Data.orderPort := v;
     Data.cartPort := Data.cartPort d;
     Data.paymentPort := Data.paymentPort d;
     Data.frontendNodeport := Data.frontendNodeport d;
     Data.posNodeport := Data.posNodeport d |}.

Definition withCartPort (v : Z) (d : Data.t) : Data.t :=
  {| Data.isSingleNode := Data.isSingleNode d;
     Data.dataStorePassword := Data.dataStorePassword d;
     Data.frontendPort := Data.frontendPort d;
     Data.usersPort := Data.usersPort d;
     Data.catalogPort := Data.catalogPort d;
     Data.orderPort := Data.orderPort d;
     Data.cartPort := v;
     Data.paymentPort := Data.paymentPort d;
     Data.frontendNodeport := Data.frontendNodeport d;
     Data.posNodeport := Data.posNodeport d |}.

Definition withPaymentPort (v : Z) (d : Data.t) : Data.t :=
  {| Data.isSingleNode := Data.isSingleNode d;
     Data.dataStorePassword := Data.dataStorePassword d;
     Data.frontendPort := Data.frontendPort d;
     Data.usersPort := Data.usersPort d;
     Data.catalogPort := Data.catalogPort d;
     Data.orderPort := Data.orderPort d;
     Data.cartPort := Data.cartPort d;
     Data.paymentPort := v;
     Data.frontendNodeport := Data.frontendNodeport d;
     Data.posNodeport := Data.posNodeport d |}.

Definition withFrontendNodeport (v : Z) (d : Data.t) : Data.t :=
  {| Data.isSingleNode := Data.isSingleNode d;
     Data.dataStorePassword := Data.dataStorePassword d;
     Data.frontendPort := Data.frontendPort d;
     Data.usersPort := Data.usersPort d;
     Data.catalogPort := Data.catalogPort d;
     Data.orderPort := Data.orderPort d;
     Data.cartPort := Data.cartPort d;
     Data.paymentPort := Data.paymentPort d;
     Data.frontendNodeport := v;
     Data.posNodeport := Data.posNodeport d |}.

Definition withPosNodeport (v : Z) (d : Data.t) : Data.t :=
  {| Data.isSingleNode := Data.isSingleNode d;
     Data.dataStorePassword := Data.dataStorePassword d;
     Data.frontendPort := Data.frontendPort d;
     Data.usersPort := Data.usersPort d;
     Data.catalogPort := Data.catalogPort d;
     Data.orderPort := Data.orderPort d;
     Data.cartPort := Data.cartPort d;
     Data.paymentPort := Data.paymentPort d;
     Data.frontendNodeport := Data.frontendNodeport d;
     Data.posNodeport := v |}.

(** The same on the run-time object, where a field can also be removed. *)
Definition setIsSingleNode (v : option bool) (kv : KubeVars.t) : KubeVars.t :=
  {| KubeVars.isSingleNode := v;
     KubeVars.dataStorePassword := KubeVars.dataStorePassword kv;
     KubeVars.frontendPort := KubeVars.frontendPort kv;
     KubeVars.usersPort := KubeVars.usersPort kv;
     KubeVars.catalogPort := KubeVars.catalogPort kv;
     KubeVars.orderPort := KubeVars.orderPort kv;
     KubeVars.cartPort := KubeVars.cartPort kv;
     KubeVars.paymentPort := KubeVars.paymentPort kv;
     KubeVars.frontendNodeport := KubeVars.frontendNodeport kv;
     KubeVars.posNodeport := KubeVars.posNodeport kv |}.

Definition setFrontendNodeport (v : option Z) (kv : KubeVars.t) : KubeVars.t :=
  {| KubeVars.isSingleNode := KubeVars.isSingleNode kv;
     KubeVars.dataStorePassword := KubeVars.dataStorePassword kv;
     KubeVars.frontendPort := KubeVars.frontendPort kv;
     KubeVars.usersPort := KubeVars.usersPort kv;
     KubeVars.catalogPort := KubeVars.catalogPort kv;
     KubeVars.orderPort := KubeVars.orderPort kv;
     KubeVars.cartPort := KubeVars.cartPort kv;
     KubeVars.paymentPort := KubeVars.paymentPort kv;
     KubeVars.frontendNodeport := v;
     KubeVars.posNodeport := KubeVars.posNodeport kv |}.

(* ------------------------------------------------------------------------- *)
(** ** Where a run stops *)

(** The resources of a complete run, in registration order. *)
Definition catalogue : list Ref :=
  [ (KSecret, "cart-redis-pass"); (KSecret, "catalog-mongo-pass");
    (KSecret, "order-postgres-pass"); (KSecret, "users-redis-pass");
    (KSecret, "users-mongo-pass");
    (KConfigMap, "catalog-config-map"); (KConfigMap, "users-config-map");
    (KDeployment, "cart-redis-deployment"); (KDeployment, "cart-deployment");
    (KDeployment, "catalogmongo-deployment"); (KDeployment, "catalog-deployment");
    (KDeployment, "payment-deployment");
    (KDeployment, "order-postgres-deployment"); (KDeployment, "order-deployment");
    (KDeployment, "usersmongo-deployment");
    (KDeployment, "users-redis-deployment"); (KDeployment, "users-deployment");
    (KService, "cart-redis-service"); (KService, "cart-service");
    (KService, "catalog-mongo-service"); (KService, "catalog-service");
    (KService, "payment-service"); (KService, "order-postgres-service");
    (KService, "order-service"); (KService, "users-mongo-service");
    (KService, "users-redis-service"); (KService, "users-service");
    (KDeployment, "frontend-deployment"); (KService, "frontend-service");
    (KDeployment, "pos-deployment"); (KService, "pos-service") ].

(** How many resources a run registers, by the first field it lacks among
    those it cannot do without. *)
Definition stopsAt (kv : KubeVars.t) : nat :=
  match KubeVars.dataStorePassword kv with
  | None => 0
  | Some _ =>
      match KubeVars.cartPort kv, KubeVars.usersPort kv with
      | Some _, Some _ =>
          match KubeVars.catalogPort kv with
          | None => 10
          | Some _ =>
              match KubeVars.paymentPort kv with
              | None => 11
              | Some _ =>
                  match KubeVars.orderPort kv with
                  | None => 13
                  | Some _ =>
                      match KubeVars.frontendPort kv with
                      | None => 27
                      | Some _ => 31
                      end
                  end
              end
          end
      | _, _ => 8
      end
  end%nat.

(** The Service that the loop over the table creates for one entry. *)
Definition tableService (service : K8sService.t) : Resource.t :=
  Resource.make (K8sService.name service ++ "-service")%string
    (ServiceArgs
       {| Service.metadata :=
            named (K8sService.name service)
              [("app", "acmefit"); ("service", K8sService.service service)];
          Service.spec :=
            {| ServiceSpec.type := None;
               ServiceSpec.ports :=
                 [{| ServicePort.port := K8sService.portnumber service;
                     ServicePort.name := K8sService.portname service;
                     ServicePort.protocol := "TCP";
                     ServicePort.targetPort := None;
                     ServicePort.nodePort := None |}];
               ServiceSpec.selector :=
                 [("app", "acmefit"); ("service", K8sService.service service)] |} |})
    [K8sService.dependency service] None.

(* ========================================================================= *)
(** * Properties *)

(** ** The model of [toString] and [toBase64] on known values *)

Example toBase64_helloworld : toBase64 "helloworld" = "aGVsbG93b3JsZA==".
Proof. reflexivity. Qed.

Example toBase64_rfc4648 :
  map toBase64 [""; "f"; "fo"; "foo"; "foob"; "fooba"; "foobar"]
  = [""; "Zg=="; "Zm8="; "Zm9v"; "Zm9vYg=="; "Zm9vYmE="; "Zm9vYmFy"].
Proof. reflexivity. Qed.

Example numberToString_examples :
  map numberToString [0; 80; 3000; 30430; -5] = ["0"; "80"; "3000"; "30430"; "-5"].
Proof. reflexivity. Qed.

(* ------------------------------------------------------------------------- *)
(** ** Base64 *)

Module Base64Facts.
Import Base64.

Lemma value_digit_nat (n : nat) :
  (n < 64)%nat -> value (digit (Z.of_nat n)) = Some (Z.of_nat n).
Proof.
  intros H. do 64 (destruct n as [|n]; [reflexivity|]). lia.
Qed.

Lemma value_digit v : 0 <= v < 64 -> value (digit v) = Some v.
Proof.
  intros H. rewrite <- (Z2Nat.id v) by lia. apply value_digit_nat. lia.
Qed.

Lemma value_pad : value pad = None.
Proof. reflexivity. Qed.

(** The four digits of a group of three bytes give the bytes back. *)
Lemma group3 a b c :
  0 <= a < 256 -> 0 <= b < 256 -> 0 <= c < 256 ->
  let n := a * 65536 + b * 256 + c in
  let m := (n / 262144) * 262144 + ((n / 4096) mod 64) * 4096
           + ((n / 64) mod 64) * 64 + n mod 64 in
  m / 65536 = a /\ (m / 256) mod 256 = b /\ m mod 256 = c.
Proof.
  intros Ha Hb Hc n m.
  assert (Hm : m = n) by (subst m; Z.div_mod_to_equations; lia).
  rewrite Hm. subst n. Z.div_mod_to_equations. lia.
Qed.

Ltac digits :=
  repeat rewrite value_digit by (Z.div_mod_to_equations; lia).

(** Decoding undoes encoding, on bytes. *)
Lemma decode_encode bs : Forall isByte bs -> decode (encode bs) = Some bs.
Proof.
  remember (List.length bs) as n eqn:Hn. revert bs Hn.
  induction n as [n IH] using lt_wf_ind.
  intros [|a [|b [|c rest]]] Hn Hbs.
  - reflexivity.
  - inversion Hbs as [|? ? Ha _]; subst. unfold isByte in Ha.
    cbn [encode decode]. digits. rewrite value_pad.
    cbn [Ascii.eqb andb]. rewrite Ascii.eqb_refl. cbn [andb].
    do 2 f_equal. Z.div_mod_to_equations. lia.
  - inversion Hbs as [|? ? Ha Hbs']; subst.
    inversion Hbs' as [|? ? Hb _]; subst. unfold isByte in Ha, Hb.
    cbn [encode decode]. digits. rewrite value_pad.
    rewrite Ascii.eqb_refl.
    f_equal. f_equal; [|f_equal]; Z.div_mod_to_equations; lia.
  - inversion Hbs as [|? ? Ha Hbs']; subst.
    inversion Hbs' as [|? ? Hb Hbs'']; subst.
    inversion Hbs'' as [|? ? Hc Hrest]; subst. unfold isByte in Ha, Hb, Hc.
    cbn [encode decode]. digits.
    rewrite (IH (List.length rest)) with (bs := rest);
      [ | simpl; lia | reflexivity | exact Hrest ].
    cbn [option_map].
    destruct (@group3 a b c Ha Hb Hc) as (H1 & H2 & H3).
    cbv zeta in H1, H2, H3. rewrite H1, H2, H3. reflexivity.
Qed.
End Base64Facts.

Lemma bytesOf_isByte s : Forall isByte (bytesOf s).
Proof.
  unfold bytesOf. apply Forall_forall. intros b Hb. apply in_map_iff in Hb.
  destruct Hb as (c & Hc & _). subst b. unfold isByte.
  pose proof (nat_ascii_bounded c). lia.
Qed.

Lemma stringOfBytes_bytesOf s : stringOfBytes (bytesOf s) = s.
Proof.
  unfold stringOfBytes, bytesOf. rewrite map_map.
  rewrite <- (string_of_list_ascii_of_string s) at 2. f_equal.
  rewrite <- (map_id (list_ascii_of_string s)) at 2.
  apply map_ext. intros c. rewrite Nat2Z.id. apply ascii_nat_embedding.
Qed.

(** The encoded string decodes to the string that was encoded. *)
Lemma toBase64_decodes s :
  option_map stringOfBytes (Base64.decode (list_ascii_of_string (toBase64 s)))
  = Some s.
Proof.
  unfold toBase64. rewrite list_ascii_of_string_of_list_ascii.
  rewrite Base64Facts.decode_encode by apply bytesOf_isByte.
  simpl. rewrite stringOfBytes_bytesOf. reflexivity.
Qed.


(* ------------------------------------------------------------------------- *)
(** ** Reading a graph: what the views contain *)

(** Membership in a view: the entries of the graph of that kind. *)
Ltac view_membership :=
  rewrite in_flat_map; split;
  [ let r' := fresh "r" in
    let Hin := fresh "Hin" in
    let Hr := fresh "Hr" in
    intros [r' [Hin Hr]];
    destruct (Resource.args r') eqn:?; simpl in Hr; try contradiction;
    destruct Hr as [Hr | []]; inversion Hr; subst; auto
  | let Hin := fresh "Hin" in
    let Hr := fresh "Hr" in
    intros [Hin Hr]; eexists; split; [exact Hin | rewrite Hr; left; reflexivity] ].

Section Views.

Variable g : Engine.

Lemma In_secretsOf r a :
  In (r, a) (secretsOf g) <-> In r g /\ Resource.args r = SecretArgs a.
Proof. unfold secretsOf. view_membership. Qed.

Lemma In_configMapsOf r a :
  In (r, a) (configMapsOf g) <-> In r g /\ Resource.args r = ConfigMapArgs a.
Proof. unfold configMapsOf. view_membership. Qed.

Lemma In_deploymentsOf r a :
  In (r, a) (deploymentsOf g) <-> In r g /\ Resource.args r = DeploymentArgs a.
Proof. unfold deploymentsOf. view_membership. Qed.

Lemma In_servicesOf r a :
  In (r, a) (servicesOf g) <-> In r g /\ Resource.args r = ServiceArgs a.
Proof. unfold servicesOf. view_membership. Qed.

Lemma Ref_eqb_eq (a b : Ref) : Ref_eqb a b = true <-> a = b.
Proof.
  destruct a as [ka na], b as [kb nb]. unfold Ref_eqb. simpl.
  rewrite andb_true_iff, String.eqb_eq. split.
  - intros [Hk Hn]. destruct ka, kb; try discriminate Hk; subst; reflexivity.
  - intros H. inversion H; subst. split; [destruct kb|]; reflexivity.
Qed.

Lemma lookup_In x r : lookup g x = Some r -> In r g /\ Resource.ref r = x.
Proof.
  unfold lookup. intros H. apply find_some in H. destruct H as [Hin Heq].
  apply Ref_eqb_eq in Heq. auto.
Qed.

Lemma deploymentAt_In x w :
  deploymentAt g x = Some w ->
  exists r, In (r, w) (deploymentsOf g) /\ Resource.ref r = x.
Proof.
  unfold deploymentAt. destruct (lookup g x) as [r|] eqn:E; [|discriminate].
  destruct (Resource.args r) eqn:Ea; try discriminate.
  intros H. inversion H; subst. apply lookup_In in E. destruct E as [Hin Hx].
  exists r. rewrite In_deploymentsOf. auto.
Qed.

(** An explicit ordering path starts and ends with an edge. *)
Lemma createdAfter_first_edge a c :
  createdAfter g a c -> exists b, dependsOnEdge g a b.
Proof. intros H. destruct H as [a b H | a b c H _]; eauto. Qed.

Lemma createdAfter_last_edge a c :
  createdAfter g a c -> exists b, dependsOnEdge g b c.
Proof. intros H. induction H as [a b H | a b c _ _ IH]; eauto. Qed.

End Views.

Lemma position_nth_error g x i :
  position g x = Some i ->
  exists r, nth_error g i = Some r /\ Resource.ref r = x.
Proof.
  revert i. induction g as [|r g IH]; simpl; intros i H; [discriminate|].
  destruct (Ref_eqb (Resource.ref r) x) eqn:E.
  - inversion H; subst. exists r. split; [reflexivity|].
    apply (Ref_eqb_eq (Resource.ref r) x). exact E.
  - destruct (position g x) as [k|]; simpl in H; [|discriminate].
    inversion H; subst. simpl. apply IH. reflexivity.
Qed.

(** Submission order on references is submission order on the list. *)
Lemma registeredBefore_nth_error g a b :
  registeredBefore g a b ->
  exists i j ra rb,
    nth_error g i = Some ra /\ Resource.ref ra = a /\
    nth_error g j = Some rb /\ Resource.ref rb = b /\ (i < j)%nat.
Proof.
  intros (i & j & Hi & Hj & Hlt).
  apply position_nth_error in Hi. destruct Hi as (ra & Hi & Ha).
  apply position_nth_error in Hj. destruct Hj as (rb & Hj & Hb).
  exists i, j, ra, rb. auto.
Qed.

(* ------------------------------------------------------------------------- *)
(** ** Which exceptions a run can end with *)

Section Throws.

Variable P : Error -> Prop.

Lemma throwsOnly_ret A (a : A) : throwsOnly P (ret a).
Proof. intros e e' err H. discriminate H. Qed.

Lemma throwsOnly_throw A err : P err -> throwsOnly P (@throw A err).
Proof. intros HP e e' err' H. inversion H; subst. exact HP. Qed.

Lemma throwsOnly_bind A B (m : Run A) (k : A -> Run B) :
  throwsOnly P m -> (forall a, throwsOnly P (k a)) -> throwsOnly P (bind m k).
Proof.
  intros Hm Hk e e' err H. unfold bind in H.
  destruct (m e) as [e1 [err1 | a]] eqn:E.
  - inversion H; subst. exact (Hm _ _ _ E).
  - exact (Hk a _ _ _ H).
Qed.

Lemma throwsOnly_newWith name args dependsOn parent :
  throwsOnly P (newWith name args dependsOn parent).
Proof. intros e e' err H. discriminate H. Qed.

Lemma throwsOnly_forOf A (xs : list A) (body : A -> Run unit) :
  (forall x, throwsOnly P (body x)) -> throwsOnly P (forOf xs body).
Proof.
  intros Hbody. induction xs as [|x xs IH]; simpl.
  - apply throwsOnly_ret.
  - apply throwsOnly_bind; [apply Hbody | intros _; exact IH].
Qed.

Hypothesis typeErrors : P TypeError.

Lemma throwsOnly_toString x : throwsOnly P (toString x).
Proof.
  destruct x; simpl; [apply throwsOnly_ret | apply throwsOnly_throw, typeErrors].
Qed.

Lemma throwsOnly_toBase64' x : throwsOnly P (toBase64' x).
Proof.
  destruct x; simpl; [apply throwsOnly_ret | apply throwsOnly_throw, typeErrors].
Qed.

End Throws.

Create HintDb throws.

#[local] Hint Resolve throwsOnly_ret throwsOnly_newWith throwsOnly_toString
  throwsOnly_toBase64' : throws.

Ltac throws_step :=
  first [ apply throwsOnly_bind; [ | intro ]
        | apply throwsOnly_forOf; intro
        | solve [ unfold newSecret, newConfigMap, newDeployment, newService, new;
                  auto with throws ] ].

(** Once the configuration object has been read, the only exception the
    program can end with is a [TypeError]. *)
Lemma resources_throw_TypeError kubeVars :
  throwsOnly (fun err => err = TypeError) (resources kubeVars).
Proof.
  unfold resources, createPasswords, createServices, catalogConfigMap,
    usersConfigMap, cartRedisDeployment, cartDeployment, catalogMongoDeployment,
    catalogDeployment, paymentDeployment, orderPostgresDeployment,
    orderDeployment, usersMongoDeployment, usersRedisDeployment,
    usersDeployment, frontendDeployment, frontendService, posDeployment,
    posService.
  repeat throws_step.
Qed.

(* ------------------------------------------------------------------------- *)
(** ** The two loops *)

(** The Secret that the loop over [passwords] creates for one name. *)
Lemma createPasswords_registers kubeVars secretValue e :
  KubeVars.dataStorePassword kubeVars = Some secretValue ->
  createPasswords kubeVars e
  = (e ++ map (fun password =>
                 Resource.make password
                   (SecretArgs
                      {| Secret.metadata :=
                           ObjectMeta.make password (Some "default") [];
                         Secret.type := "Opaque";
                         Secret.data := [("password", toBase64 secretValue)] |})
                   [] None)
              passwords,
     inr tt).
Proof.
  intros Hpw. unfold createPasswords. rewrite Hpw. simpl toBase64'.
  generalize passwords. intros ps. revert e.
  induction ps as [|p ps IH]; intros e; simpl.
  - unfold ret. rewrite app_nil_r. reflexivity.
  - unfold bind at 1. simpl. rewrite IH. rewrite <- app_assoc. reflexivity.
Qed.

(** Without a password the first turn of the loop throws, before any
    constructor has run. *)
Lemma createPasswords_undefined kubeVars e :
  KubeVars.dataStorePassword kubeVars = None ->
  createPasswords kubeVars e = (e, inl TypeError).
Proof. intros Hpw. unfold createPasswords. rewrite Hpw. reflexivity. Qed.

(** The loop over a table of services registers one Service per entry, in
    order; each lists the entry's [dependency] as its only [dependsOn] and
    selects on the entry's [service] label. *)
Lemma createServices_registers table e :
  exists rs,
    createServices table e = (e ++ rs, inr tt) /\
    map Resource.name rs
    = map (fun s => (K8sService.name s ++ "-service")%string) table /\
    map Resource.dependsOn rs = map (fun s => [K8sService.dependency s]) table /\
    map (fun rs => selector (snd rs)) (servicesOf rs)
    = map (fun s => [("app", "acmefit"); ("service", K8sService.service s)]) table.
Proof.
  revert e. induction table as [|s table IH]; intros e.
  - exists []. simpl. unfold ret. rewrite app_nil_r. auto.
  - destruct (IH (e ++ [Resource.make (K8sService.name s ++ "-service")%string
            (ServiceArgs
               {| Service.metadata :=
                    named (K8sService.name s)
                      [("app", "acmefit"); ("service", K8sService.service s)];
                  Service.spec :=
                    {| ServiceSpec.type := None;
                       ServiceSpec.ports :=
                         [{| ServicePort.port := K8sService.portnumber s;
                             ServicePort.name := K8sService.portname s;
                             ServicePort.protocol := "TCP";
                             ServicePort.targetPort := None;
                             ServicePort.nodePort := None |}];
                       ServiceSpec.selector :=
                         [("app", "acmefit"); ("service", K8sService.service s)]
                    |} |})
            [K8sService.dependency s] None]))
      as (rs & Hrun & Hnames & Hdeps & Hsel).
    eexists (_ :: rs). split; [|split; [|split]].
    + unfold createServices in *. simpl. unfold bind at 1. simpl.
      rewrite Hrun. rewrite <- app_assoc. reflexivity.
    + simpl. rewrite Hnames. reflexivity.
    + simpl. rewrite Hdeps. reflexivity.
    + simpl. f_equal. exact Hsel.
Qed.

(** The component of secrets.ts would register the same Secrets as the loop
    of index.ts, as children of the component. *)
Lemma ACMESecrets_same_secrets d :
  map snd (secretsOf (fst (ACMESecrets passwords (Data.dataStorePassword d) [])))
  = map snd (secretsOf (graph d)).
Proof. destruct d. reflexivity. Qed.

(* ------------------------------------------------------------------------- *)
(** ** The graph of a complete configuration *)

(** A property of every entry of an explicit list: [tac] proves it of each
    entry in turn. *)
Ltac each_entry tac :=
  repeat (apply Forall_cons; [once tac | ]); apply Forall_nil.

(** Computes the list a [Forall] ranges over, and nothing else. *)
Ltac explicit_list :=
  match goal with
  | |- Forall ?P ?l => let l' := eval cbn in l in change (Forall P l')
  end.

(** A complete configuration makes the program end normally, having
    registered these thirty-one resources in this order. *)
Lemma graph_refs d :
  map Resource.ref (graph d)
  = [ (KSecret, "cart-redis-pass"); (KSecret, "catalog-mongo-pass");
      (KSecret, "order-postgres-pass"); (KSecret, "users-redis-pass");
      (KSecret, "users-mongo-pass");
      (KConfigMap, "catalog-config-map"); (KConfigMap, "users-config-map");
      (KDeployment, "cart-redis-deployment"); (KDeployment, "cart-deployment");
      (KDeployment, "catalogmongo-deployment"); (KDeployment, "catalog-deployment");
      (KDeployment, "payment-deployment");
      (KDeployment, "order-postgres-deployment"); (KDeployment, "order-deployment");
      (KDeployment, "usersmongo-deployment");
      (KDeployment, "users-redis-deployment"); (KDeployment, "users-deployment");
      (KService, "cart-redis-service"); (KService, "cart-service");
      (KService, "catalog-mongo-service"); (KService, "catalog-service");
      (KService, "payment-service"); (KService, "order-postgres-service");
      (KService, "order-service"); (KService, "users-mongo-service");
      (KService, "users-redis-service"); (KService, "users-service");
      (KDeployment, "frontend-deployment"); (KService, "frontend-service");
      (KDeployment, "pos-deployment"); (KService, "pos-service") ].
Proof. destruct d. reflexivity. Qed.

Lemma build_ends_normally d :
  exists frontendIP, snd (build (Some (KubeVars.supplied d))) = inr frontendIP.
Proof. destruct d as [[] ? ? ? ? ? ? ? ? ?]; eexists; reflexivity. Qed.

(** The workloads and the Secrets and ConfigMaps their pods refer to. *)
Lemma graph_references d :
  map (fun rw => (workloadName (snd rw), secretRefs (snd rw), configMapRefs (snd rw)))
      (deploymentsOf (graph d))
  = [ ("cart-redis", ["cart-redis-pass"], []);
      ("cart", ["cart-redis-pass"], []);
      ("catalog-mongo", ["catalog-mongo-pass"], ["catalog-initdb-config"]);
      ("catalog", ["catalog-mongo-pass"], []);
      ("payment", [], []);
      ("order-postgres", ["order-postgres-pass"; "order-postgres-pass"], []);
      ("order", ["order-postgres-pass"; "order-postgres-pass"], []);
      ("users-mongo", ["users-mongo-pass"], ["users-initdb-config"]);
      ("users-redis", ["users-redis-pass"], []);
      ("users", ["users-mongo-pass"; "users-redis-pass"], []);
      ("frontend", [], []);
      ("pos", [], []) ].
Proof. destruct d. reflexivity. Qed.

(** No resource of the graph lists a Secret in its [dependsOn]. *)
Lemma graph_no_edge_to_secret d a b :
  dependsOnEdge (graph d) a b -> fst b <> KSecret.
Proof.
  intros (r & Hin & _ & Hb).
  assert (HF : Forall (fun r => Forall (fun b => fst b <> KSecret)
                                       (Resource.dependsOn r)) (graph d)).
  { destruct d. cbn. each_entry ltac:(each_entry ltac:(discriminate)). }
  rewrite Forall_forall in HF. specialize (HF r Hin).
  rewrite Forall_forall in HF. auto.
Qed.

(* ------------------------------------------------------------------------- *)
(** ** Exposure of the two entry points *)

(** C1.  Whatever the configuration, there is one frontend Service, and its
    exposure follows [isSingleNode] alone: when it is true the Service is of
    type NodePort and its port entry has [nodePort] equal to
    [frontendNodeport]; when it is false the Service is of type LoadBalancer
    and its port entry has no [nodePort]. *)
Theorem frontend_exposure (d : Data.t) :
  exists s,
    servicesNamed "frontend" (graph d) = [s] /\
    exposure s = if Data.isSingleNode d
                 then (Some "NodePort", [Some (Data.frontendNodeport d)])
                 else (Some "LoadBalancer", [None]).
Proof.
  destruct d as [[] pw fp up cp op ctp pp fnp pnp];
    eexists; split; reflexivity.
Qed.

(** C2.  Whatever the configuration, and whatever its [isSingleNode], there
    is one point-of-sale Service; it is of type NodePort and its port entry
    has [nodePort] equal to [posNodeport]. *)
Theorem pointOfSale_exposure (d : Data.t) :
  exists s,
    servicesNamed "pos" (graph d) = [s] /\
    exposure s = (Some "NodePort", [Some (Data.posNodeport d)]).
Proof.
  destruct d as [[] pw fp up cp op ctp pp fnp pnp];
    eexists; split; reflexivity.
Qed.

(** C10.  In both exposure modes the frontend Service has one port entry,
    with [port] the constant 80 and [targetPort] equal to [frontendPort];
    the entry of the load-balanced mode is the entry of the node-port mode
    with its [nodePort] field removed, and nothing else changed. *)
Theorem frontend_port_entry (d : Data.t) :
  exists p,
    flat_map servicePorts
      (servicesNamed "frontend" (graph (withSingleNode true d))) = [p] /\
    flat_map servicePorts
      (servicesNamed "frontend" (graph (withSingleNode false d)))
    = [withoutNodePort p] /\
    ServicePort.port p = Some 80 /\
    ServicePort.targetPort p = Some (Data.frontendPort d) /\
    ServicePort.nodePort p = Some (Data.frontendNodeport d).
Proof.
  destruct d as [b pw fp up cp op ctp pp fnp pnp].
  eexists. split; [reflexivity|]. repeat split.
Qed.

(* ------------------------------------------------------------------------- *)
(** ** Secrets *)

(** C6.  Whatever the configuration, the Secrets of the graph are five, one
    for each of the names cart-redis-pass, catalog-mongo-pass,
    order-postgres-pass, users-redis-pass and users-mongo-pass, and the data
    of each is the single key [password] with the base64 encoding of
    [dataStorePassword] as its value: the same string for all five, which
    decodes to [dataStorePassword]. *)
Theorem secrets_of_graph (d : Data.t) :
  map (fun rs => (secretName (snd rs), Secret.data (snd rs))) (secretsOf (graph d))
  = map (fun name => (name, [("password", toBase64 (Data.dataStorePassword d))]))
        ["cart-redis-pass"; "catalog-mongo-pass"; "order-postgres-pass";
         "users-redis-pass"; "users-mongo-pass"] /\
  option_map stringOfBytes
    (Base64.decode (list_ascii_of_string (toBase64 (Data.dataStorePassword d))))
  = Some (Data.dataStorePassword d).
Proof.
  split; [destruct d; reflexivity | apply toBase64_decodes].
Qed.

(* ------------------------------------------------------------------------- *)
(** ** Services and the workloads behind them *)

(** C7.  Whatever the configuration, every Service of the graph depends on
    one workload of the graph, and the selector of the Service is equal to
    the labels that workload puts on its pods; so the Service selects the
    pods of that workload. *)
Theorem selectors_match_pod_labels (d : Data.t) :
  Forall (selectorMatchesTarget (graph d)) (servicesOf (graph d)).
Proof.
  destruct d as [b pw fp up cp op ctp pp fnp pnp].
  cbn. each_entry ltac:(do 2 eexists; repeat split; reflexivity).
Qed.

(** C9.  Whatever the configuration, the workloads that mount a ConfigMap
    are catalog-mongo, with catalog-initdb-config, and users-mongo, with
    users-initdb-config; each workload lists the ConfigMaps it mounts in its
    [dependsOn]; and every Service lists in its [dependsOn] the workload
    whose pods it selects. *)
Theorem explicit_ordering_edges (d : Data.t) :
  flat_map (fun rw => map (pair (workloadName (snd rw))) (configMapRefs (snd rw)))
           (deploymentsOf (graph d))
  = [("catalog-mongo", "catalog-initdb-config");
     ("users-mongo", "users-initdb-config")] /\
  Forall (mountsAfterConfigMap (graph d)) (deploymentsOf (graph d)) /\
  Forall (afterFrontedWorkloads (graph d)) (servicesOf (graph d)).
Proof.
  destruct d as [b pw fp up cp op ctp pp fnp pnp].
  split; [reflexivity|]. split.
  - cbn. each_entry ltac:(each_entry ltac:(eexists; split; [reflexivity | left; reflexivity])).
  - cbn. each_entry ltac:(
      split;
      [ reflexivity
      | each_entry ltac:(intro H; first [discriminate H | left; reflexivity]) ]).
Qed.

(* ------------------------------------------------------------------------- *)
(** ** Container ports and Service ports *)

(** The frontend workload listens on [frontendPort]; the one Service that
    selects it offers port 80 and forwards to [frontendPort]. *)
Lemma frontend_ports d :
  exists w s,
    workloadsNamed "frontend" (graph d) = [w] /\
    frontingServices (graph d) w = [s] /\
    containerPorts w = [Some (Data.frontendPort d)] /\
    map ServicePort.port (servicePorts s) = [Some 80] /\
    map ServicePort.targetPort (servicePorts s) = [Some (Data.frontendPort d)].
Proof.
  destruct d as [[] pw fp up cp op ctp pp fnp pnp];
    do 2 eexists; repeat split; reflexivity.
Qed.

(** C3, as stated, fails: with the configuration of Pulumi.dev.yaml the
    frontend workload declares container port 3000 while the Service that
    selects it has port 80. *)
Lemma ports_agree_fails_for_frontend :
  ~ Forall (fun w => Forall (portsAgree w) (frontingServices (graph devConfig) w))
           (filter isApplication (map snd (deploymentsOf (graph devConfig)))).
Proof.
  intros H. rewrite Forall_forall in H.
  destruct (frontend_ports devConfig) as (w & s & Hw & Hs & Hc & Hp & _).
  assert (Hin : In w (filter isApplication
                        (map snd (deploymentsOf (graph devConfig))))).
  { assert (Hw' : In w (workloadsNamed "frontend" (graph devConfig)))
      by (rewrite Hw; left; reflexivity).
    unfold workloadsNamed in Hw'. apply filter_In in Hw'.
    destruct Hw' as [Hw' Hname]. apply filter_In. split; [exact Hw'|].
    unfold isApplication. apply String.eqb_eq in Hname. rewrite Hname.
    reflexivity. }
  specialize (H w Hin). rewrite Hs in H. inversion H as [|? ? Hagree _]; subst.
  unfold portsAgree in Hagree. rewrite Hc, Hp in Hagree. discriminate Hagree.
Qed.

(** C3, amended.  Whatever the configuration, each application workload
    (frontend, users, catalog, order, cart, payment, point of sale) is
    selected by one Service; for every one of them but the frontend the
    container port of the workload is the port of that Service; for the
    frontend the container port is the [targetPort] of the Service, whose
    [port] is the constant 80. *)
Theorem application_ports (d : Data.t) :
  map workloadName (filter isApplication (map snd (deploymentsOf (graph d))))
  = ["cart"; "catalog"; "payment"; "order"; "users"; "frontend"; "pos"] /\
  Forall (fun w => exists s,
              frontingServices (graph d) w = [s] /\
              if String.eqb (workloadName w) "frontend"
              then containerPorts w = map ServicePort.targetPort (servicePorts s) /\
                   map ServicePort.port (servicePorts s) = [Some 80]
              else portsAgree w s)
         (filter isApplication (map snd (deploymentsOf (graph d)))).
Proof.
  destruct d as [b pw fp up cp op ctp pp fnp pnp].
  split; [reflexivity|].
  destruct b; explicit_list;
    each_entry ltac:(eexists; split; [reflexivity | repeat split; reflexivity]).
Qed.

(* ------------------------------------------------------------------------- *)
(** ** Secrets and creation order *)

Lemma secretsNamed_is_secret g n rs :
  In rs (secretsNamed n g) ->
  In (fst rs) g /\ fst (Resource.ref (fst rs)) = KSecret /\ secretName (snd rs) = n.
Proof.
  unfold secretsNamed. intros H. apply filter_In in H. destruct H as [Hin Hn].
  destruct rs as [r s]. apply In_secretsOf in Hin. destruct Hin as [Hin Hargs].
  simpl. unfold Resource.kind. rewrite Hargs. apply String.eqb_eq in Hn. auto.
Qed.

(** In the graph of a complete configuration no explicit ordering path ends
    at a Secret. *)
Lemma graph_nothing_after_secret d a rs :
  In rs (secretsOf (graph d)) ->
  ~ createdAfter (graph d) a (Resource.ref (fst rs)).
Proof.
  intros Hin Hafter. destruct rs as [r s].
  apply In_secretsOf in Hin. destruct Hin as [_ Hargs].
  apply createdAfter_last_edge in Hafter. destruct Hafter as [b Hedge].
  apply graph_no_edge_to_secret in Hedge. apply Hedge.
  simpl. unfold Resource.kind. rewrite Hargs. reflexivity.
Qed.

(** C4, as stated, fails: with the configuration of Pulumi.dev.yaml the
    workload cart-redis reads its password from the Secret cart-redis-pass,
    and no explicit ordering path leads from the workload to the Secret. *)
Lemma explicit_secret_ordering_fails :
  ~ Forall (afterSecretsExplicitly (graph devConfig))
           (deploymentsOf (graph devConfig)).
Proof.
  intros H. pose proof (graph_references devConfig) as Hrefs.
  destruct (deploymentsOf (graph devConfig)) as [|rw rest]; [discriminate Hrefs|].
  inversion H as [|? ? Hrw _]; subst. simpl in Hrefs.
  injection Hrefs as _ Hsecrets _ _. unfold afterSecretsExplicitly in Hrw.
  rewrite Hsecrets in Hrw. inversion Hrw as [|? ? [rs [Hnamed Hafter]] _]; subst.
  apply (@graph_nothing_after_secret devConfig (Resource.ref (fst rw)) rs);
    [|exact Hafter].
  assert (Hin : In rs (secretsNamed "cart-redis-pass" (graph devConfig)))
    by (rewrite Hnamed; left; reflexivity).
  unfold secretsNamed in Hin. apply filter_In in Hin. apply Hin.
Qed.

(** C4, amended.  Whatever the configuration, the environment of eight
    workloads refers to Secrets; each Secret so referred to is in the graph,
    once, and was registered before the workload, in the submission order of
    the program; no explicit ordering path of the graph ends at a Secret. *)
Theorem secrets_precede_in_submission_order (d : Data.t) :
  flat_map (fun rw => map (pair (workloadName (snd rw))) (secretRefs (snd rw)))
           (deploymentsOf (graph d))
  = [ ("cart-redis", "cart-redis-pass"); ("cart", "cart-redis-pass");
      ("catalog-mongo", "catalog-mongo-pass"); ("catalog", "catalog-mongo-pass");
      ("order-postgres", "order-postgres-pass");
      ("order-postgres", "order-postgres-pass");
      ("order", "order-postgres-pass"); ("order", "order-postgres-pass");
      ("users-mongo", "users-mongo-pass"); ("users-redis", "users-redis-pass");
      ("users", "users-mongo-pass"); ("users", "users-redis-pass") ] /\
  Forall (afterSecretsInSubmissionOrder (graph d)) (deploymentsOf (graph d)) /\
  Forall (fun rs => forall a, ~ createdAfter (graph d) a (Resource.ref (fst rs)))
         (secretsOf (graph d)).
Proof.
  split; [destruct d; reflexivity|]. split.
  - destruct d as [b pw fp up cp op ctp pp fnp pnp]. explicit_list.
    each_entry ltac:(
      unfold afterSecretsInSubmissionOrder; explicit_list;
      each_entry ltac:(
        eexists; split;
        [ reflexivity
        | do 2 eexists; split;
          [ reflexivity | split; [ reflexivity | vm_compute; lia ] ] ])).
  - apply Forall_forall. intros rs Hin a. apply graph_nothing_after_secret, Hin.
Qed.

(* ------------------------------------------------------------------------- *)
(** ** Absent configuration *)

(** What the program does with the configuration of Pulumi.dev.yaml when
    [posNodeport] is left out: it ends normally, with all thirty-one
    resources, the point-of-sale Service without a [nodePort]. *)
Lemma build_without_posNodeport :
  snd (build (Some devWithoutPosNodeport)) = inr (known "http://localhost:30430") /\
  List.length (registered (Some devWithoutPosNodeport)) = 31%nat /\
  nodePortsOf "pos" (registered (Some devWithoutPosNodeport)) = [None].
Proof. repeat split; reflexivity. Qed.

(** And when [cartPort] is left out: the cart workload cannot be described;
    the run ends there with a [TypeError], eight resources registered. *)
Lemma build_without_cartPort :
  snd (build (Some devWithoutCartPort)) = inl TypeError /\
  map Resource.ref (registered (Some devWithoutCartPort))
  = [ (KSecret, "cart-redis-pass"); (KSecret, "catalog-mongo-pass");
      (KSecret, "order-postgres-pass"); (KSecret, "users-redis-pass");
      (KSecret, "users-mongo-pass");
      (KConfigMap, "catalog-config-map"); (KConfigMap, "users-config-map");
      (KDeployment, "cart-redis-deployment") ].
Proof. split; reflexivity. Qed.

(** The run ends normally exactly when the password and the six ports are
    there; [isSingleNode] and the two node ports may be absent.  It then has
    registered all thirty-one resources. *)
Lemma build_ends_normally_iff kubeVars :
  (exists frontendIP, snd (build (Some kubeVars)) = inr frontendIP)
  <-> dereferenced kubeVars = true.
Proof.
  destruct kubeVars as [sn pw fp up cp op ctp pp fnp pnp].
  unfold dereferenced. simpl.
  destruct pw; [|split; [intros [o H]; discriminate H | discriminate]].
  destruct ctp; [|split; [intros [o H]; discriminate H | discriminate]].
  destruct up; [|split; [intros [o H]; discriminate H | discriminate]].
  destruct cp; [|split; [intros [o H]; discriminate H | discriminate]].
  destruct pp; [|split; [intros [o H]; discriminate H | discriminate]].
  destruct op; [|split; [intros [o H]; discriminate H | discriminate]].
  destruct fp; [|split; [intros [o H]; discriminate H | discriminate]].
  split; [reflexivity|]. intros _. eexists. reflexivity.
Qed.

Lemma build_registers_all kubeVars :
  dereferenced kubeVars = true ->
  List.length (registered (Some kubeVars)) = 31%nat.
Proof.
  destruct kubeVars as [sn [pw|] [fp|] [up|] [cp|] [op|] [ctp|] [pp|] fnp pnp];
    try discriminate.
  intros _. reflexivity.
Qed.

(** C5, as stated, fails: the configuration of Pulumi.dev.yaml without its
    [posNodeport] lacks a required field, and the build does not fail. *)
Lemma missing_field_not_rejected :
  KubeVars.complete devWithoutPosNodeport = false /\
  ~ failsFast (Some devWithoutPosNodeport).
Proof.
  split; [reflexivity|]. intros [key H].
  apply (f_equal snd) in H.
  rewrite (proj1 build_without_posNodeport) in H. discriminate H.
Qed.

(** C5, amended.  If the configuration has no [kubevars] object at all, the
    build fails with a configuration error before any resource is
    constructed, and produces no resources.  The fields of the object are
    not checked: once [kubevars] has been read, no run ends with a
    configuration error, whichever fields are absent. *)
Theorem missing_kubevars_fails_fast :
  failsFast None /\
  forall kubeVars, endsWithConfigurationError (build (Some kubeVars)) = false.
Proof.
  split.
  - exists "kubevars". reflexivity.
  - intros kubeVars. unfold endsWithConfigurationError.
    destruct (build (Some kubeVars)) as [e [[key|]|out]] eqn:H; try reflexivity.
    unfold build, program in H. simpl in H. unfold bind, ret in H.
    apply (resources_throw_TypeError kubeVars) in H. discriminate H.
Qed.

(* ------------------------------------------------------------------------- *)
(** ** The scenario of Pulumi.dev.yaml *)

(** C8, as stated, fails: the graph of the scenario has eleven workloads
    besides the point of sale, not ten, and as many Services. *)
Lemma scenario_census_fails :
  ~ (census (graph devConfig) = (5, 2, (10, 10), (1, 1))%nat /\
     nodePortsOf "frontend" (graph devConfig) = [Some 30430] /\
     nodePortsOf "pos" (graph devConfig) = [Some 30431]).
Proof. intros [H _]. vm_compute in H. discriminate H. Qed.

(** C8, amended.  The graph of the scenario has 5 Secrets, 2 ConfigMaps, 11
    application and datastore workloads (the frontend among them) and 11
    Services other than those of the point of sale, 1 point-of-sale
    workload and 1 point-of-sale Service; Service and workload correspond
    one to one, the Service selecting by the pod labels of its workload and
    depending on it; the frontend Service has [nodePort] 30430 and the
    point-of-sale Service has [nodePort] 30431. *)
Theorem scenario_census :
  census (graph devConfig) = (5, 2, (11, 11), (1, 1))%nat /\
  Forall2 (fun rs rw => selector (snd rs) = podLabels (snd rw) /\
                        Resource.dependsOn (fst rs) = [Resource.ref (fst rw)])
          (servicesOf (graph devConfig)) (deploymentsOf (graph devConfig)) /\
  nodePortsOf "frontend" (graph devConfig) = [Some 30430] /\
  nodePortsOf "pos" (graph devConfig) = [Some 30431].
Proof.
  split; [reflexivity|]. split; [|split; reflexivity].
  cbn. repeat (apply Forall2_cons; [split; reflexivity|]). apply Forall2_nil.
Qed.

(* ========================================================================= *)
(** * Further properties of the program *)

(* ------------------------------------------------------------------------- *)
(** ** The encoding of the password *)


Lemma get_In n s c : String.get n s = Some c -> In c (list_ascii_of_string s).
Proof.
  revert n. induction s as [|c' s IH]; intros n H; [discriminate H|].
  destruct n as [|n]; simpl in *.
  - inversion H. auto.
  - right. eapply IH, H.
Qed.

Lemma digit_in_alphabet v :
  In (Base64.digit v) (list_ascii_of_string Base64.alphabet) \/
  Base64.digit v = Base64.pad.
Proof.
  unfold Base64.digit.
  destruct (String.get (Z.to_nat v) Base64.alphabet) eqn:E; [left|right; reflexivity].
  eapply get_In, E.
Qed.

Lemma encode_shape bs :
  List.length (Base64.encode bs) = (4 * ((List.length bs + 2) / 3))%nat /\
  Forall (fun c => In c (list_ascii_of_string Base64.alphabet) \/ c = Base64.pad)
         (Base64.encode bs).
Proof.
  remember (List.length bs) as n eqn:Hn. revert bs Hn.
  induction n as [n IH] using lt_wf_ind.
  intros [|a [|b [|c rest]]] Hn; subst n.
  - split; [reflexivity | constructor].
  - split; [reflexivity|]. cbn [Base64.encode].
    do 2 (apply Forall_cons; [apply digit_in_alphabet|]).
    do 2 (apply Forall_cons; [right; reflexivity|]). apply Forall_nil.
  - split; [reflexivity|]. cbn [Base64.encode].
    do 3 (apply Forall_cons; [apply digit_in_alphabet|]).
    apply Forall_cons; [right; reflexivity | apply Forall_nil].
  - destruct (IH (List.length rest)) with (bs := rest) as [Hlen Hchars];
      [simpl; lia | reflexivity |].
    split.
    + cbn [Base64.encode List.length]. rewrite Hlen.
      replace (S (S (S (List.length rest))) + 2)%nat
        with ((List.length rest + 2) + 1 * 3)%nat by lia.
      rewrite Nat.div_add by lia. lia.
    + cbn [Base64.encode].
      repeat (apply Forall_cons; [apply digit_in_alphabet|]). exact Hchars.
Qed.

Lemma length_string_of_list_ascii l :
  String.length (string_of_list_ascii l) = List.length l.
Proof. induction l as [|x l IH]; [reflexivity|]. simpl. f_equal. exact IH. Qed.

Lemma length_bytesOf s : List.length (bytesOf s) = String.length s.
Proof.
  unfold bytesOf. rewrite length_map.
  induction s as [|x s IH]; [reflexivity|]. simpl. f_equal. exact IH.
Qed.

(** X2.  The encoding of a string of [n] bytes has [4 * ceil(n / 3)]
    characters, each a digit of the base64 alphabet or the padding
    character: a value that a Kubernetes Secret accepts as data. *)
Theorem toBase64_shape (s : string) :
  String.length (toBase64 s) = (4 * ((String.length s + 2) / 3))%nat /\
  Forall (fun c => In c (list_ascii_of_string Base64.alphabet) \/ c = Base64.pad)
         (list_ascii_of_string (toBase64 s)).
Proof.
  unfold toBase64. rewrite list_ascii_of_string_of_list_ascii.
  destruct (encode_shape (bytesOf s)) as [Hlen Hchars].
  split; [|exact Hchars].
  rewrite length_string_of_list_ascii, Hlen, length_bytesOf. reflexivity.
Qed.

(* ------------------------------------------------------------------------- *)
(** ** The loops, for any input *)

Lemma createServices_closed_form table e :
  createServices table e = (e ++ map tableService table, inr tt).
Proof.
  revert e. induction table as [|s table IH]; intros e.
  - simpl. unfold ret. rewrite app_nil_r. reflexivity.
  - unfold createServices in *. simpl. unfold bind at 1. simpl.
    rewrite IH. rewrite <- app_assoc. reflexivity.
Qed.

(** X3.  The loop over a table of services, for any table and after any
    earlier registrations: it never throws and keeps what was registered;
    it registers one Service per entry, in the order of the table, under
    the Pulumi name [name-service] and the Kubernetes name [name], depending
    on the entry's [dependency] alone, selecting the pods labelled
    [app: acmefit] and [service: service], with the entry's [portnumber] as
    its port. *)
Theorem createServices_one_service_per_entry
    (table : list K8sService.t) (e : Engine) :
  exists rs,
    createServices table e = (e ++ rs, inr tt) /\
    Forall2 (fun entry r =>
               Resource.name r = (K8sService.name entry ++ "-service")%string /\
               Resource.dependsOn r = [K8sService.dependency entry] /\
               exists s,
                 Resource.args r = ServiceArgs s /\
                 serviceName s = K8sService.name entry /\
                 selector s = [("app", "acmefit");
                               ("service", K8sService.service entry)] /\
                 map ServicePort.port (servicePorts s)
                 = [K8sService.portnumber entry])
            table rs.
Proof.
  exists (map tableService table). split; [apply createServices_closed_form|].
  induction table as [|entry table IH]; simpl; constructor; [|exact IH].
  repeat split. eexists. repeat split.
Qed.

Lemma ACMESecrets_loop this secretValue ps e :
  forOf ps (fun password =>
    newWith password
      (SecretArgs
         {| Secret.metadata := ObjectMeta.make password (Some "default") [];
            Secret.type := "Opaque";
            Secret.data := [("password", toBase64 secretValue)] |})
      [] (Some this) ;;;
    ret tt) e
  = (e ++ map (fun password =>
                 Resource.make password
                   (SecretArgs
                      {| Secret.metadata :=
                           ObjectMeta.make password (Some "default") [];
                         Secret.type := "Opaque";
                         Secret.data := [("password", toBase64 secretValue)] |})
                   [] (Some this)) ps,
     inr tt).
Proof.
  revert e. induction ps as [|p ps IH]; intros e; simpl.
  - unfold ret. rewrite app_nil_r. reflexivity.
  - unfold bind at 1. simpl. rewrite IH. rewrite <- app_assoc. reflexivity.
Qed.

(** X4.  The component [ACMESecrets], for any list of names and any secret
    value: its constructor never throws; it registers the component first
    and then one Secret per name, in order, each a child of the component,
    in the namespace default, of type Opaque, with the single key
    [password] holding the base64 encoding of the secret value.  With an
    empty list it registers the component alone. *)
Theorem ACMESecrets_registers (names : list string) (secretValue : string) :
  exists component secrets,
    ACMESecrets names secretValue []
    = (component :: secrets, inr (Resource.ref component)) /\
    Resource.ref component = (KComponent, "acmefitness-datastore-passwords") /\
    map (fun r => (Resource.name r, Resource.parent r)) secrets
    = map (fun name => (name, Some (Resource.ref component))) names /\
    map snd (secretsOf secrets)
    = map (fun name =>
             {| Secret.metadata := ObjectMeta.make name (Some "default") [];
                Secret.type := "Opaque";
                Secret.data := [("password", toBase64 secretValue)] |}) names.
Proof.
  do 2 eexists. split.
  { unfold ACMESecrets. unfold bind at 1. simpl.
    unfold bind at 1. rewrite ACMESecrets_loop. reflexivity. }
  split; [reflexivity|]. split.
  - rewrite map_map. reflexivity.
  - induction names as [|n names IH]; [reflexivity|].
    simpl. f_equal. exact IH.
Qed.

(** X5.  index.ts and the component of secrets.ts describe the same
    Secrets: given the names and the password of a configuration, the
    component would register Secrets with the argument objects of those
    that the loop of index.ts registers.  They differ in that the Secrets of
    the component have it as their parent. *)
Theorem ACMESecrets_agrees_with_index (kubeVars : KubeVars.t) (secretValue : string) :
  KubeVars.dataStorePassword kubeVars = Some secretValue ->
  map snd (secretsOf (fst (ACMESecrets passwords secretValue [])))
  = map snd (secretsOf (fst (createPasswords kubeVars []))) /\
  Forall (fun rs => Resource.parent (fst rs)
                    = Some (KComponent, "acmefitness-datastore-passwords"))
         (secretsOf (fst (ACMESecrets passwords secretValue []))) /\
  Forall (fun rs => Resource.parent (fst rs) = None)
         (secretsOf (fst (createPasswords kubeVars []))).
Proof.
  intros Hpw. rewrite (createPasswords_registers kubeVars [] Hpw).
  split; [reflexivity|]. split; explicit_list; each_entry ltac:(reflexivity).
Qed.

Lemma ACMESecrets_agrees_with_index_witness :
  map snd (secretsOf (fst (ACMESecrets passwords "helloworld" [])))
  = map snd (secretsOf (fst (createPasswords devWithoutPosNodeport []))) /\
  Forall (fun rs => Resource.parent (fst rs)
                    = Some (KComponent, "acmefitness-datastore-passwords"))
         (secretsOf (fst (ACMESecrets passwords "helloworld" []))) /\
  Forall (fun rs => Resource.parent (fst rs) = None)
         (secretsOf (fst (createPasswords devWithoutPosNodeport []))).
Proof.
  apply (@ACMESecrets_agrees_with_index devWithoutPosNodeport "helloworld").
  reflexivity.
Defined.

(* ------------------------------------------------------------------------- *)
(** ** Identities and order *)

Lemma distinct_NoDup l : distinct l = true -> NoDup l.
Proof.
  induction l as [|x l IH]; simpl; intros H; constructor.
  - apply andb_true_iff in H. destruct H as [H _].
    intros Hin. apply negb_true_iff in H.
    assert (Hex : existsb (String.eqb x) l = true).
    { apply existsb_exists. exists x. split; [exact Hin | apply String.eqb_refl]. }
    rewrite Hex in H. discriminate H.
  - apply IH. apply andb_true_iff in H. apply H.
Qed.

(** The identities of the resources a run registers are the first
    [stopsAt] entries of the catalogue. *)
Lemma registered_refs kubeVars :
  map Resource.ref (registered (Some kubeVars))
  = firstn (stopsAt kubeVars) catalogue.
Proof.
  destruct kubeVars as [sn pw fp up cp op ctp pp fnp pnp].
  unfold stopsAt. simpl.
  destruct pw; [|reflexivity].
  destruct ctp; [|reflexivity].
  destruct up; [|reflexivity].
  destruct cp; [|reflexivity].
  destruct pp; [|reflexivity].
  destruct op; [|reflexivity].
  destruct fp; reflexivity.
Qed.

Lemma NoDup_firstn A n (l : list A) : NoDup l -> NoDup (firstn n l).
Proof.
  intros H. rewrite <- (firstn_skipn n l) in H.
  apply NoDup_app_remove_r in H. exact H.
Qed.

(** X6.  Whatever the configuration, complete or not, no two resources that
    the program registers have the same Pulumi name, and no two objects of
    one kind have the same Kubernetes name. *)
Theorem names_do_not_collide (config : StackConfig) :
  NoDup (map Resource.name (registered config)) /\
  NoDup (kubernetesNames (registered config)).
Proof.
  destruct config as [kubeVars|]; [|split; constructor].
  assert (Hnames : map Resource.name (registered (Some kubeVars))
                   = firstn (stopsAt kubeVars) (map snd catalogue)).
  { rewrite firstn_map, <- registered_refs, map_map. reflexivity. }
  assert (Hkube : kubernetesNames (registered (Some kubeVars))
                  = firstn (stopsAt kubeVars)
                      (kubernetesNames (graph devConfig))).
  { destruct kubeVars as [sn pw fp up cp op ctp pp fnp pnp].
    unfold stopsAt. simpl.
    destruct pw; [|reflexivity].
    destruct ctp; [|reflexivity].
    destruct up; [|reflexivity].
    destruct cp; [|reflexivity].
    destruct pp; [|reflexivity].
    destruct op; [|reflexivity].
    destruct fp; reflexivity. }
  rewrite Hnames, Hkube. split; apply NoDup_firstn.
  - apply distinct_NoDup. reflexivity.
  - apply (NoDup_map_inv (fun x => (match fst x with
                                    | KSecret => "secret/"
                                    | KConfigMap => "configmap/"
                                    | KDeployment => "deployment/"
                                    | KService => "service/"
                                    | KComponent => "component/"
                                    end ++ snd x)%string)).
    apply distinct_NoDup. reflexivity.
Qed.

(* ------------------------------------------------------------------------- *)
(** ** Incomplete configurations *)

(** X7.  Once [kubevars] has been read, a run stops at the first workload
    whose description needs a field that is absent, with a [TypeError] and
    the resources before it registered: nothing without the password; 8
    resources without [cartPort] or [usersPort], 10 without [catalogPort],
    11 without [paymentPort], 13 without [orderPort], 27 without
    [frontendPort].  Otherwise it ends normally with all 31; [isSingleNode]
    and the two node ports are never needed. *)
Theorem run_stops_at_first_missing_port (kubeVars : KubeVars.t) :
  map Resource.ref (registered (Some kubeVars))
  = firstn (stopsAt kubeVars) catalogue /\
  match snd (build (Some kubeVars)) with
  | inr _ => stopsAt kubeVars = 31%nat
  | inl err => err = TypeError /\ (stopsAt kubeVars < 31)%nat
  end.
Proof.
  split; [apply registered_refs|].
  destruct kubeVars as [sn pw fp up cp op ctp pp fnp pnp].
  unfold stopsAt. simpl.
  destruct pw; [|split; [reflexivity | lia]].
  destruct ctp; [|split; [reflexivity | lia]].
  destruct up; [|split; [reflexivity | lia]].
  destruct cp; [|split; [reflexivity | lia]].
  destruct pp; [|split; [reflexivity | lia]].
  destruct op; [|split; [reflexivity | lia]].
  destruct fp; [|split; [reflexivity | lia]].
  reflexivity.
Qed.

(** X8.  A configuration without [isSingleNode] is treated as one with
    [isSingleNode: false]: the run, its resources and its output are the
    same. *)
Theorem absent_isSingleNode_is_false (kubeVars : KubeVars.t) :
  build (Some (setIsSingleNode None kubeVars))
  = build (Some (setIsSingleNode (Some false) kubeVars)).
Proof. destruct kubeVars. reflexivity. Qed.

(** X9.  When [isSingleNode] is false or absent, [frontendNodeport] is not
    used: the run is the same whatever its value, and without it. *)
Theorem frontendNodeport_unused_behind_load_balancer
    (kubeVars : KubeVars.t) (v : option Z) :
  truthy (KubeVars.isSingleNode kubeVars) = false ->
  build (Some (setFrontendNodeport v kubeVars)) = build (Some kubeVars).
Proof.
  destruct kubeVars as [[[]|] pw fp up cp op ctp pp fnp pnp];
    simpl; intros H; try discriminate H; reflexivity.
Qed.

Lemma frontendNodeport_unused_behind_load_balancer_witness :
  build (Some (setFrontendNodeport (Some 31000)
                 (setIsSingleNode (Some false) devWithoutPosNodeport)))
  = build (Some (setIsSingleNode (Some false) devWithoutPosNodeport)).
Proof.
  apply (@frontendNodeport_unused_behind_load_balancer
           (setIsSingleNode (Some false) devWithoutPosNodeport) (Some 31000)).
  reflexivity.
Defined.

(* ------------------------------------------------------------------------- *)
(** ** Stack outputs *)

(** X10.  A run with [isSingleNode] true and no [frontendNodeport] still
    ends normally, provided the password and the six ports are there: the
    frontend Service is of type NodePort with no [nodePort] requested, and
    the output [frontendIP] names the port [undefined]. *)
Theorem frontendIP_without_nodeport (kubeVars : KubeVars.t) :
  dereferenced kubeVars = true ->
  KubeVars.isSingleNode kubeVars = Some true ->
  KubeVars.frontendNodeport kubeVars = None ->
  snd (build (Some kubeVars)) = inr (known "http://localhost:undefined") /\
  map exposure (servicesNamed "frontend" (registered (Some kubeVars)))
  = [(Some "NodePort", [None])].
Proof.
  destruct kubeVars as [sn [pw|] [fp|] [up|] [cp|] [op|] [ctp|] [pp|] fnp pnp];
    simpl; try discriminate.
  intros _ Hsn Hfnp. subst. split; reflexivity.
Qed.

Lemma frontendIP_without_nodeport_witness :
  snd (build (Some (setFrontendNodeport None (KubeVars.supplied devConfig))))
  = inr (known "http://localhost:undefined") /\
  map exposure
      (servicesNamed "frontend"
         (registered (Some (setFrontendNodeport None (KubeVars.supplied devConfig)))))
  = [(Some "NodePort", [None])].
Proof.
  apply (@frontendIP_without_nodeport
           (setFrontendNodeport None (KubeVars.supplied devConfig)));
    reflexivity.
Defined.


(** The output [posIP] renders the node port that the platform reports for
    the Service as [frontendIP] renders the configured one. *)
Lemma posIP_renders service port :
  snd (posIP service) port = ("http://localhost:" ++ numberToString port)%string.
Proof. reflexivity. Qed.

(* ------------------------------------------------------------------------- *)
(** ** What a field of the configuration reaches *)

(** X12.  The identity of every resource is fixed by the program: whatever
    two complete configurations are given, the two graphs have the same
    resources in the same order, with the same kinds, Pulumi names,
    [dependsOn], Kubernetes names, namespaces and labels. *)
Theorem identities_do_not_depend_on_configuration (d d' : Data.t) :
  map identity (graph d) = map identity (graph d').
Proof. destruct d, d'. reflexivity. Qed.

Ltac same_or_named :=
  repeat (apply Forall2_cons;
          [ split; [ reflexivity | first [ right; reflexivity | left; reflexivity ] ] | ]);
  apply Forall2_nil.

(** X13.  The password reaches nothing but the five Secrets: two complete
    configurations that differ in [dataStorePassword] only give graphs with
    the same resources, equal at every resource that is not a Secret. *)
Theorem password_reaches_secrets_only (d : Data.t) (v : string) :
  differOnlyAt ["cart-redis-pass"; "catalog-mongo-pass"; "order-postgres-pass";
                "users-redis-pass"; "users-mongo-pass"]
               (graph d) (graph (withPassword v d)).
Proof.
  destruct d as [b pw fp up cp op ctp pp fnp pnp].
  unfold differOnlyAt. cbn. same_or_named.
Qed.

(** X14.  The three exposure settings reach one Service each at most:
    [isSingleNode] and [frontendNodeport] the frontend Service,
    [posNodeport] the point-of-sale Service.  Every other resource is the
    same whatever their values. *)
Theorem exposure_settings_reach_one_service (d : Data.t) (b : bool) (v : Z) :
  differOnlyAt ["frontend-service"] (graph d) (graph (withSingleNode b d)) /\
  differOnlyAt ["frontend-service"] (graph d) (graph (withFrontendNodeport v d)) /\
  differOnlyAt ["pos-service"] (graph d) (graph (withPosNodeport v d)).
Proof.
  destruct d as [b0 pw fp up cp op ctp pp fnp pnp].
  unfold differOnlyAt. repeat split; cbn; same_or_named.
Qed.

(** X15.  A port of an application reaches nothing but its own workload and
    Service and the workloads that are told where to find it: changing
    [usersPort] leaves every resource as it was except users and its five
    clients (cart, catalog, payment, order, frontend); [cartPort],
    [catalogPort] and [orderPort], except their application and the
    frontend; [paymentPort], except payment and order; [frontendPort],
    except the frontend. *)
Theorem ports_reach_owner_and_clients (d : Data.t) (v : Z) :
  differOnlyAt ["users-deployment"; "users-service"; "cart-deployment";
                "catalog-deployment"; "payment-deployment"; "order-deployment";
                "frontend-deployment"]
               (graph d) (graph (withUsersPort v d)) /\
  differOnlyAt ["cart-deployment"; "cart-service"; "frontend-deployment"]
               (graph d) (graph (withCartPort v d)) /\
  differOnlyAt ["catalog-deployment"; "catalog-service"; "frontend-deployment"]
               (graph d) (graph (withCatalogPort v d)) /\
  differOnlyAt ["order-deployment"; "order-service"; "frontend-deployment"]
               (graph d) (graph (withOrderPort v d)) /\
  differOnlyAt ["payment-deployment"; "payment-service"; "order-deployment"]
               (graph d) (graph (withPaymentPort v d)) /\
  differOnlyAt ["frontend-deployment"; "frontend-service"]
               (graph d) (graph (withFrontendPort v d)).
Proof.
  destruct d as [b pw fp up cp op ctp pp fnp pnp].
  unfold differOnlyAt. repeat split; cbn; same_or_named.
Qed.

(* ------------------------------------------------------------------------- *)
(** ** Workloads: labels, volumes and environment *)

(** X16.  Whatever the configuration, the selector of every workload is the
    label set of its pod template, and the workload carries these labels
    itself. *)
Theorem workload_selects_its_pods (d : Data.t) :
  Forall (fun rw => matchLabels (snd rw) = podLabels (snd rw) /\
                    incl (podLabels (snd rw))
                         (ObjectMeta.labels (Deployment.metadata (snd rw))))
         (deploymentsOf (graph d)).
Proof.
  destruct d as [b pw fp up cp op ctp pp fnp pnp]. explicit_list.
  each_entry ltac:(split; [reflexivity | intros l Hl; cbn in Hl |- *; tauto]).
Qed.

(** X17.  Whatever the configuration, every volume a container mounts is a
    volume of its pod, and every volume of a pod is mounted: the two lists
    of names are equal. *)
Theorem mounts_are_volumes (d : Data.t) :
  Forall (fun rw => mountedVolumes (snd rw) = declaredVolumes (snd rw))
         (deploymentsOf (graph d)).
Proof.
  destruct d as [b pw fp up cp op ctp pp fnp pnp]. explicit_list.
  each_entry ltac:(reflexivity).
Qed.

(** X18.  Whatever the configuration, every reference of an environment
    variable to a key of a Secret resolves: the Secret of that name is in
    the graph, once, and its data has that key. *)
Theorem secret_keys_resolve (d : Data.t) :
  Forall (fun rw =>
            Forall (fun ref => exists rs,
                        secretsNamed (fst ref) (graph d) = [rs] /\
                        In (snd ref) (map fst (Secret.data (snd rs))))
                   (secretKeyRefs (snd rw)))
         (deploymentsOf (graph d)).
Proof.
  destruct d as [b pw fp up cp op ctp pp fnp pnp]. explicit_list.
  each_entry ltac:(
    explicit_list;
    each_entry ltac:(eexists; split; [reflexivity | left; reflexivity])).
Qed.

(** X19.  Whatever the configuration, each of the five Secrets is read by
    two workloads, a datastore and the application that connects to it, and
    each of the two ConfigMaps is mounted by one workload, its mongo
    datastore, on the directory of the image's start-up scripts. *)
Theorem secrets_and_configMaps_are_consumed (d : Data.t) :
  map (fun rs => (secretName (snd rs), consumersOf (secretName (snd rs)) (graph d)))
      (secretsOf (graph d))
  = [ ("cart-redis-pass", ["cart-redis"; "cart"]);
      ("catalog-mongo-pass", ["catalog-mongo"; "catalog"]);
      ("order-postgres-pass", ["order-postgres"; "order"]);
      ("users-redis-pass", ["users-redis"; "users"]);
      ("users-mongo-pass", ["users-mongo"; "users"]) ] /\
  map (fun rc => (configMapName (snd rc), mountersOf (configMapName (snd rc)) (graph d)))
      (configMapsOf (graph d))
  = [ ("catalog-initdb-config",
       [("catalog-mongo", ["/docker-entrypoint-initdb.d"])]);
      ("users-initdb-config",
       [("users-mongo", ["/docker-entrypoint-initdb.d"])]) ].
Proof. destruct d. split; reflexivity. Qed.



(** X22.  Whatever the configuration, the six workloads that are given the
    host of the tracing agent (JAEGER_AGENT_HOST) are given its port under
    the name JAGER_AGENT_PORT; no workload sets a variable JAEGER_AGENT_PORT. *)
Theorem tracing_agent_variables (d : Data.t) :
  map (fun rw => (workloadName (snd rw),
                  envValue "JAEGER_AGENT_HOST" (snd rw),
                  envValue "JAGER_AGENT_PORT" (snd rw),
                  envValue "JAEGER_AGENT_PORT" (snd rw)))
      (filter (fun rw => existsb (fun e => String.eqb (fst e) "JAEGER_AGENT_HOST")
                                 (literalEnv (snd rw)))
              (deploymentsOf (graph d)))
  = [ ("cart", Some "localhost", Some "6831", None);
      ("catalog", Some "localhost", Some "6831", None);
      ("payment", Some "localhost", Some "6832", None);
      ("order", Some "localhost", Some "6831", None);
      ("users", Some "localhost", Some "6831", None);
      ("frontend", Some "localhost", Some "6832", None) ] /\
  Forall (fun rw => envValue "JAEGER_AGENT_PORT" (snd rw) = None)
         (deploymentsOf (graph d)).
Proof.
  destruct d as [b pw fp up cp op ctp pp fnp pnp].
  split; [reflexivity|]. explicit_list. each_entry ltac:(reflexivity).
Qed.

(** X23.  Whatever the configuration, the workloads that are replaced by
    re-creation (strategy Recreate) are the seven applications; the five
    datastores set no strategy. *)
Theorem recreate_strategy (d : Data.t) :
  map (fun rw => (workloadName (snd rw),
                  DeploymentSpec.strategy (Deployment.spec (snd rw))))
      (deploymentsOf (graph d))
  = map (fun rw => (workloadName (snd rw),
                    if isApplication (snd rw) then Some "Recreate" else None))
        (deploymentsOf (graph d)) /\
  map workloadName
      (filter (fun w => negb (isApplication w)) (map snd (deploymentsOf (graph d))))
  = ["cart-redis"; "catalog-mongo"; "order-postgres"; "users-mongo"; "users-redis"].
Proof. destruct d. split; reflexivity. Qed.

(* ------------------------------------------------------------------------- *)
(** ** Services *)

(** X24.  Whatever the configuration, the only Services that set a type are
    those of the frontend and of the point of sale; the ten others leave it
    unset, which makes them internal to the cluster, and their port entry
    has neither [targetPort] nor [nodePort]. *)
Theorem table_services_are_internal (d : Data.t) :
  map (fun rs => serviceName (snd rs))
      (filter (fun rs => match ServiceSpec.type (Service.spec (snd rs)) with
                         | Some _ => true
                         | None => false
                         end)
              (servicesOf (graph d)))
  = ["frontend"; "pos"] /\
  Forall (fun rs => ServiceSpec.type (Service.spec (snd rs)) = None ->
                    map (fun p => (ServicePort.targetPort p, ServicePort.nodePort p))
                        (servicePorts (snd rs))
                    = [(None, None)])
         (servicesOf (graph d)).
Proof.
  destruct d as [b pw fp up cp op ctp pp fnp pnp].
  split; [destruct b; reflexivity|]. explicit_list.
  each_entry ltac:(intro H; first [discriminate H | reflexivity]).
Qed.

(** X25.  Whatever the configuration, every Service has the Kubernetes name
    of the workload it depends on, so that the host names of X20 lead to the
    pods of the workload of that name; the Service carries its selector
    as its own labels, and has one port entry, of protocol TCP. *)
Theorem service_is_named_after_its_workload (d : Data.t) :
  Forall (fun rs => exists target w,
              Resource.dependsOn (fst rs) = [target] /\
              deploymentAt (graph d) target = Some w /\
              serviceName (snd rs) = workloadName w /\
              ObjectMeta.labels (Service.metadata (snd rs)) = selector (snd rs) /\
              map ServicePort.protocol (servicePorts (snd rs)) = ["TCP"])
         (servicesOf (graph d)).
Proof.
  destruct d as [b pw fp up cp op ctp pp fnp pnp]. destruct b; explicit_list;
    each_entry ltac:(do 2 eexists; repeat split; reflexivity).
Qed.

(* ------------------------------------------------------------------------- *)
(** ** Explicit ordering is consistent with submission order *)

Lemma registeredBefore_trans g a b c :
  registeredBefore g a b -> registeredBefore g b c -> registeredBefore g a c.
Proof.
  intros (i & j & Hi & Hj & Hij) (j' & k & Hj' & Hk & Hjk).
  rewrite Hj in Hj'. inversion Hj'; subst.
  exists i, k. repeat split; try assumption. lia.
Qed.

Lemma registeredBefore_irrefl g a : ~ registeredBefore g a a.
Proof.
  intros (i & j & Hi & Hj & Hij). rewrite Hi in Hj. inversion Hj. lia.
Qed.

(** Where every edge points back in submission order, so does every path. *)
Lemma createdAfter_registeredBefore g :
  Forall (fun r => Forall (fun x => registeredBefore g x (Resource.ref r))
                          (Resource.dependsOn r)) g ->
  forall a b, createdAfter g a b -> registeredBefore g b a.
Proof.
  intros Hback a b H.
  assert (Hedge : forall a b, dependsOnEdge g a b -> registeredBefore g b a).
  { intros x y (r & Hin & Hr & Hy). subst x.
    rewrite Forall_forall in Hback. specialize (Hback r Hin).
    rewrite Forall_forall in Hback. apply Hback, Hy. }
  induction H as [a b H | a b c H _ IH].
  - apply Hedge, H.
  - eapply registeredBefore_trans; [exact IH | apply Hedge, H].
Qed.

(** X26.  Whatever the configuration, every resource that another lists in
    its [dependsOn] was registered before it; so the explicit ordering
    agrees with the submission order of the program, and has no cycle. *)
Theorem explicit_order_points_backwards (d : Data.t) :
  Forall (fun r => Forall (fun x => registeredBefore (graph d) x (Resource.ref r))
                          (Resource.dependsOn r))
         (graph d) /\
  forall a, ~ createdAfter (graph d) a a.
Proof.
  assert (Hback : Forall (fun r => Forall (fun x => registeredBefore (graph d) x
                                                      (Resource.ref r))
                                          (Resource.dependsOn r)) (graph d)).
  { destruct d as [b pw fp up cp op ctp pp fnp pnp]. explicit_list.
    each_entry ltac:(
      explicit_list;
      each_entry ltac:(
        do 2 eexists; split;
        [ reflexivity | split; [ reflexivity | vm_compute; lia ] ])). }
  split; [exact Hback|].
  intros a H. apply (createdAfter_registeredBefore Hback) in H.
  exact (registeredBefore_irrefl H).
Qed.
